(** * Shallow embedding of the newcli runtime and container-engine core

    Go strings are [String.string] values; Go [error] values are modelled by
    their [Error()] text.  Effects (running a subprocess, talking to the
    container daemon, asking the OS for the working directory) are explicit
    parameters of the functions that perform them. *)

From Stdlib Require Import String Ascii List Bool Arith ZArith Lia.
Import ListNotations.
Open Scope list_scope.
Open Scope string_scope.

(** A Go [(T, error)] pair: a value, or a non-nil error. *)
Inductive result (A : Type) : Type :=
| Ok (a : A)
| Err (e : string).
Arguments Ok {A} a.
Arguments Err {A} e.

(** ** Go standard-library string helpers *)

(** [strings.HasPrefix s prefix] (arguments in Go order). *)
Fixpoint HasPrefix (s prefix : string) {struct prefix} : bool :=
  match prefix, s with
  | EmptyString, _ => true
  | String _ _, EmptyString => false
  | String p ps, String c cs => Ascii.eqb p c && HasPrefix cs ps
  end.

(** [strings.Contains s substr]. *)
Fixpoint Contains (s substr : string) : bool :=
  HasPrefix s substr ||
  match s with
  | EmptyString => false
  | String _ s' => Contains s' substr
  end.

(** One byte of [strings.ToLower]: the ASCII path of the Go function, which
    maps 'A'..'Z' to 'a'..'z' and keeps every other byte. *)
Definition lower_byte (c : ascii) : ascii :=
  let n := nat_of_ascii c in
  if ((65 <=? n) && (n <=? 90))%nat then ascii_of_nat (n + 32)%nat else c.

(** [strings.ToLower], on its ASCII path: Go takes that path when every byte
    of the string is below 128, and the result then agrees with this one;
    other strings are lowered rune by rune with [unicode.ToLower], which this
    definition does not model. *)
Fixpoint ToLower (s : string) : string :=
  match s with
  | EmptyString => EmptyString
  | String c s' => String (lower_byte c) (ToLower s')
  end.

(** [fmt.Sprint] applied to operands that are all strings: Go inserts a space
    only between two operands when neither is a string, so string operands
    are concatenated, and formatting verbs such as %s are not interpreted. *)
Definition Sprint_strings (operands : list string) : string :=
  fold_right String.append EmptyString operands.

(** [fmt.Sprintf("%s=%s", k, v)], the key=value pair formatting. *)
Definition Sprintf_kv (k v : string) : string := k ++ "=" ++ v.

(** ** Container engine contract (pkg/containerengine) *)

Module ContainerEngine.

(** [container.LogConfig]: a log driver name and its options. *)
Record LogConfig : Type := mkLogConfig {
  lc_Type : string;
  lc_Config : list (string * string)
}.

(** [ContainerLogger]: the log configuration plus the start/stop hooks. *)
Record ContainerLogger : Type := mkContainerLogger {
  Config : LogConfig;
  Start : result unit;
  Stop : result unit
}.

(** The [ContainerEngine] interface, one field per method, over the Docker
    API types that the engine only passes through. *)
Record Engine (Image ImagePullOptions ContainerConfig HostConfig NetworkingConfig
               WaitCondition WaitChannels ContainerLogsOptions ReadCloser Duration
               : Type) : Type := mkEngine {
  Type_ : string;
  Version : string;
  Build : string -> string -> string -> list (string * string) -> list string -> result unit;
  ListImages : string -> string -> result (list Image);
  ImagePull : string -> ImagePullOptions -> result unit;
  ContainerCreate : ContainerConfig -> HostConfig -> NetworkingConfig -> string -> result string;
  StartC : string -> result unit;
  StopC : string -> option Duration -> result unit;
  ContainerWait : string -> WaitCondition -> WaitChannels;
  RemoveByLabel : list (string * string) -> result unit;
  ContainerLogs : string -> ContainerLogsOptions -> result ReadCloser;
  Logger : string -> ContainerLogger
}.
Arguments mkEngine {Image ImagePullOptions ContainerConfig HostConfig NetworkingConfig
  WaitCondition WaitChannels ContainerLogsOptions ReadCloser Duration}.
Arguments Type_ {_ _ _ _ _ _ _ _ _ _} _.
Arguments Version {_ _ _ _ _ _ _ _ _ _} _.
Arguments Build {_ _ _ _ _ _ _ _ _ _} _.
Arguments ListImages {_ _ _ _ _ _ _ _ _ _} _.
Arguments ImagePull {_ _ _ _ _ _ _ _ _ _} _.
Arguments ContainerCreate {_ _ _ _ _ _ _ _ _ _} _.
Arguments StartC {_ _ _ _ _ _ _ _ _ _} _.
Arguments StopC {_ _ _ _ _ _ _ _ _ _} _.
Arguments ContainerWait {_ _ _ _ _ _ _ _ _ _} _.
Arguments RemoveByLabel {_ _ _ _ _ _ _ _ _ _} _.
Arguments ContainerLogs {_ _ _ _ _ _ _ _ _ _} _.
Arguments Logger {_ _ _ _ _ _ _ _ _ _} _.

Section Engine.

Context {Image ImagePullOptions ContainerConfig HostConfig NetworkingConfig
         WaitCondition WaitChannels ContainerLogsOptions ReadCloser Duration : Type}.

Local Abbreviation Engine := (Engine Image ImagePullOptions ContainerConfig HostConfig
  NetworkingConfig WaitCondition WaitChannels ContainerLogsOptions ReadCloser Duration).

(** Running a subprocess to completion ([exec.Command(name, args...)] then
    [Run], or [Start] then [Wait]): its standard output, or the error. *)
Variable exec_run : string -> list string -> result string.

(** [utils.NewNitricLogFile(stackPath)]: the log path and a possible error. *)
Variable NewNitricLogFile : string -> string * option string.

(** The argument vector built by [podman.Build]: the map range visits the
    entries of [buildArgs] in the order of the list. *)
Definition podman_build_args (dockerfile path imageTag : string)
    (buildArgs : list (string * string)) : list string :=
  ["build"; path; "-f"; dockerfile; "-t"; ToLower imageTag] ++
  flat_map (fun kv => ["--build-arg"; Sprint_strings ["%s=%s"; fst kv; snd kv]])
    buildArgs.

(** [podman.Build]: run [podman build ...] and wait for it; [excludes] is not
    used. *)
Definition podman_Build (dockerfile path imageTag : string)
    (buildArgs : list (string * string)) (excludes : list string) : result unit :=
  match exec_run "podman" (podman_build_args dockerfile path imageTag buildArgs) with
  | Ok _ => Ok tt
  | Err e => Err e
  end.

(** [jsonfile.Config]. *)
Definition jsonfile_Config (logPath : string) : LogConfig :=
  mkLogConfig "json-file" [("path", logPath)].

(** [podman.Logger]: a json-file logger whose hooks do nothing. *)
Definition podman_Logger (stackPath : string) : ContainerLogger :=
  let logPath := fst (NewNitricLogFile stackPath) in
  mkContainerLogger (jsonfile_Config logPath) (Ok tt) (Ok tt).

(** The [podman] struct embedding a [docker] engine [d]. *)
Definition podman (d : Engine) : Engine := {|
  Type_ := "podman";
  Version := Version d;
  Build := podman_Build;
  ListImages := fun stackName containerName => ListImages d stackName containerName;
  ImagePull := fun rawImage opts => ImagePull d rawImage opts;
  ContainerCreate := fun config hostConfig networkingConfig name =>
    ContainerCreate d config hostConfig networkingConfig name;
  StartC := fun nameOrID => StartC d nameOrID;
  StopC := fun nameOrID timeout => StopC d nameOrID timeout;
  ContainerWait := fun containerID condition => ContainerWait d containerID condition;
  RemoveByLabel := fun labels => RemoveByLabel d labels;
  ContainerLogs := fun containerID opts => ContainerLogs d containerID opts;
  Logger := podman_Logger
|}.

(** The docker client, [client.NewClientWithOpts(client.FromEnv)] and the
    connection test [cli.ContainerList]. *)
Variable Client : Type.
Variable NewClientWithOpts : result Client.
Variable ContainerList : Client -> result unit.
(** [&docker{cli: cli}]. *)
Variable docker_of_client : Client -> Engine.

(** [newPodman]. *)
Definition newPodman : result Engine :=
  match exec_run "podman" ["--version"] with
  | Err e => Err e
  | Ok _ =>
    match exec_run "docker" ["--version"] with
    | Err e => Err ("the podman-docker package is required: " ++ e)
    | Ok out =>
      if negb (Contains out "podman") then
        Err "both podman and docker found, will use docker"
      else
        match NewClientWithOpts with
        | Err e => Err e
        | Ok cli =>
          match ContainerList cli with
          | Err e => Err e
          | Ok _ => Ok (podman (docker_of_client cli))
          end
        end
    end
  end.

End Engine.

End ContainerEngine.

(** ** Stack model (pkg/stack) *)

Module Stack.

Record Stack : Type := mkStack { Stack_Name : string }.

Record Function : Type := mkFunction {
  name : string;
  Tag : string;
  Version : string;
  Handler : string
}.

(** [Function.ImageTagName]. *)
Definition ImageTagName (f : Function) (s : Stack) (provider : string) : string :=
  if String.eqb (Tag f) "" then
    let providerString := if String.eqb provider "" then "" else "-" ++ provider in
    Stack_Name s ++ "-" ++ name f ++ providerString
  else Tag f.

End Stack.

(** ** Go [strings] and [path/filepath] on a Unix host (Separator = '/') *)

Module FilePath.

(** [strings.Split(s, "/")]. *)
Fixpoint split_slash (s : string) : list string :=
  match s with
  | EmptyString => [""]
  | String c s' =>
    let rest := split_slash s' in
    if Ascii.eqb c "/" then "" :: rest
    else match rest with
         | h :: t => String c h :: t
         | [] => [String c ""]
         end
  end.

(** [strings.Join(elems, "/")]. *)
Fixpoint join_slash (l : list string) : string :=
  match l with
  | [] => ""
  | [x] => x
  | x :: t => x ++ "/" ++ join_slash t
  end.

(** One element of the lexical processing of [filepath.Clean]; the output
    built so far is kept reversed (last element first).  A ".." removes the
    last element unless that is itself ".."; at the root it is dropped, in a
    relative path with nothing to remove it is kept. *)
Definition clean_step (rooted : bool) (st : list string) (c : string) : list string :=
  if String.eqb c "" || String.eqb c "." then st
  else if String.eqb c ".." then
    match st with
    | x :: st' => if String.eqb x ".." then ".." :: st else st'
    | [] => if rooted then [] else [".."]
    end
  else c :: st.

Definition clean_comps (rooted : bool) (segs : list string) : list string :=
  rev (fold_left (clean_step rooted) segs []).

(** [filepath.IsAbs]. *)
Definition IsAbs (p : string) : bool := HasPrefix p "/".

(** The final rendering of [filepath.Clean]: a leading separator for a rooted
    path, and "." for an empty relative result. *)
Definition render (rooted : bool) (cs : list string) : string :=
  if rooted then "/" ++ join_slash cs
  else match cs with
       | [] => "."
       | _ => join_slash cs
       end.

(** [filepath.Clean]. *)
Definition Clean (p : string) : string :=
  let rooted := IsAbs p in
  render rooted (clean_comps rooted (split_slash p)).

(** [filepath.Join(a, b)]: the non-empty elements joined with '/', then
    cleaned; "" when both are empty. *)
Definition Join (a b : string) : string :=
  if negb (String.eqb a "") then Clean (a ++ "/" ++ b)
  else if negb (String.eqb b "") then Clean b
  else "".

(** [filepath.ToSlash]: the identity where the separator already is '/'. *)
Definition ToSlash (p : string) : string := p.

(** [filepath.Abs], with the result of [os.Getwd] as a parameter. *)
Definition Abs (Getwd : result string) (p : string) : result string :=
  if IsAbs p then Ok (Clean p)
  else match Getwd with
       | Ok wd => Ok (Join wd p)
       | Err e => Err e
       end.

(** The prefix [path[:i+1]] of [filepath.Dir], up to and including the last
    separator ("" when there is none). *)
Fixpoint dir_prefix (s : string) : string :=
  match s with
  | EmptyString => EmptyString
  | String c s' =>
    if Contains s' "/" then String c (dir_prefix s')
    else if Ascii.eqb c "/" then "/" else EmptyString
  end.

(** [filepath.Dir]. *)
Definition Dir (p : string) : string := Clean (dir_prefix p).

Fixpoint drop_slashes (l : list ascii) : list ascii :=
  match l with
  | c :: l' => if Ascii.eqb c "/" then drop_slashes l' else l
  | [] => []
  end.

Fixpoint take_until_slash (l : list ascii) : list ascii :=
  match l with
  | c :: l' => if Ascii.eqb c "/" then [] else c :: take_until_slash l'
  | [] => []
  end.

(** [filepath.Base]: the bytes are scanned from the end (reversed list). *)
Definition Base (p : string) : string :=
  if String.eqb p "" then "."
  else
    match drop_slashes (rev (list_ascii_of_string p)) with
    | [] => "/"
    | l => string_of_list_ascii (rev (take_until_slash l))
    end.

Fixpoint ext_rev (l acc : list ascii) : string :=
  match l with
  | [] => ""
  | c :: l' =>
    if Ascii.eqb c "/" then ""
    else if Ascii.eqb c "." then string_of_list_ascii (c :: acc)
    else ext_rev l' (c :: acc)
  end.

(** [filepath.Ext]: from the last '.' of the last element, or "". *)
Definition Ext (p : string) : string := ext_rev (rev (list_ascii_of_string p)) [].

(** The segments walked by the loop of [filepath.Rel] over a cleaned path:
    an exhausted path has none, and the only cleaned path ending in a
    separator, "/", has the single empty root segment. *)
Definition rel_segments (s : string) : list string :=
  if String.eqb s "" then []
  else if String.eqb s "/" then [""]
  else split_slash s.

(** The loop of [filepath.Rel] positioning both paths at their first
    differing segments; an exhausted path reads as the empty segment.  The
    case of two exhausted paths cannot be reached, since equal paths are
    answered before the loop. *)
Fixpoint rel_loop (fuel : nat) (bs ts : list string) : list string * list string :=
  match fuel with
  | O => (bs, ts)
  | S f =>
    match bs, ts with
    | [], [] => ([], [])
    | _, _ =>
      if String.eqb (hd "" bs) (hd "" ts) then rel_loop f (tl bs) (tl ts)
      else (bs, ts)
    end
  end.

Definition rel_error (targpath basepath : string) : string :=
  "Rel: can't make " ++ targpath ++ " relative to " ++ basepath.

(** [filepath.Rel]. *)
Definition Rel (basepath targpath : string) : result string :=
  let base0 := Clean basepath in
  let targ := Clean targpath in
  if String.eqb targ base0 then Ok "."
  else
    let base := if String.eqb base0 "." then "" else base0 in
    if negb (Bool.eqb (HasPrefix base "/") (HasPrefix targ "/")) then
      Err (rel_error targpath basepath)
    else
      let bs := rel_segments base in
      let ts := rel_segments targ in
      let '(brest, trest) := rel_loop (length bs + length ts) bs ts in
      if String.eqb (hd "" brest) ".." then Err (rel_error targpath basepath)
      else match brest with
           | [] => Ok (join_slash trest)
           | _ => Ok (join_slash (repeat ".." (length brest) ++ trest))
           end.

(** [strings.Replace(s, old, new, 1)]. *)
Fixpoint replace_first (s old new : string) : option string :=
  if HasPrefix s old then Some (new ++ substring (String.length old) (String.length s - String.length old) s)
  else match s with
       | EmptyString => None
       | String c s' => option_map (String c) (replace_first s' old new)
       end.

Definition Replace1 (s old new : string) : string :=
  if String.eqb old new then s
  else match replace_first s old new with
       | Some r => r
       | None => s
       end.

(** A path element with no separator. *)
Definition slash_free (c : string) : Prop := Contains c "/" = false.

(** An element that [Clean] keeps as a name: neither empty, "." nor "..". *)
Definition name_ok (c : string) : Prop :=
  c <> "" /\ c <> "." /\ c <> ".." /\ slash_free c.

(** The reversed output of [clean_step]: names on top of a block of ".."
    elements, and no ".." at all in a rooted path. *)
Definition stack_ok (rooted : bool) (st : list string) : Prop :=
  exists n M, st = app M (repeat ".." n) /\ Forall name_ok M /\ (rooted = true -> n = 0).

(** The elements of a cleaned path, in order. *)
Definition comps_ok (rooted : bool) (cs : list string) : Prop :=
  exists n N, cs = app (repeat ".." n) N /\ Forall name_ok N /\ (rooted = true -> n = 0).

(** [p] lies inside the directory [dir], both read lexically. *)
Definition within (dir p : string) : bool :=
  HasPrefix (Clean p) (Clean dir ++ "/").

End FilePath.

(** ** Runtime variants (pkg/runtime) *)

Module Runtime.
Import FilePath.

(** [mount.Mount], restricted to the fields the runtimes set. *)
Record Mount : Type := mkMount {
  mount_Type : string;
  mount_Source : string;
  mount_Target : string
}.

(** [LaunchOpts]. *)
Record LaunchOpts : Type := mkLaunchOpts {
  Image : string;
  Entrypoint : list string;
  Cmd : list string;
  TargetWD : string;
  Mounts : list Mount
}.

(** The two variants of this source, each holding its runtime tag and the
    handler path. *)
Inductive Runtime : Type :=
| golang (rte handler : string)
| python (rte handler : string).

Definition rte_of (t : Runtime) : string :=
  match t with golang rte _ | python rte _ => rte end.

Definition handler_of (t : Runtime) : string :=
  match t with golang _ h | python _ h => h end.

(** [DevImageName], the same for both variants. *)
Definition DevImageName (t : Runtime) : string := "nitric-" ++ rte_of t ++ "-dev".

(** Modelled from the spec: [commonIgnore], the common baseline ignore set
    (VCS metadata and local state directories), declared in a file of the
    runtime package that is not part of this source. *)
Definition commonIgnore : list string := [".git/"; ".nitric/"].

(** [BuildIgnore]. *)
Definition BuildIgnore (t : Runtime) : list string :=
  match t with
  | golang _ _ => []
  | python _ _ => commonIgnore ++ ["__pycache__/"; "*.py[cod]"; "*$py.class"]
  end.

Section Environment.

(** [os.Getwd], used by [filepath.Abs]. *)
Variable Getwd : result string.
(** [utils.GoModule(dir)] and [utils.GoPath()]. *)
Variable GoModule : string -> result string.
Variable GoPath : result string.
(** [runtime.GOOS]. *)
Variable GOOS : string.

(** [ContainerName]. *)
Definition ContainerName (t : Runtime) : string :=
  match t with
  | golang _ handler =>
    match Abs Getwd handler with
    | Err _ => ""
    | Ok absH => Base (Dir absH)
    end
  | python _ handler => Replace1 (Base handler) (Ext handler) ""
  end.

(** [fmt.Sprintf("-polling=%t", b)]. *)
Definition polling_flag (b : bool) : string :=
  "-polling=" ++ (if b then "true" else "false").

(** The relative handler computed by golang's [LaunchOptsForFunction]. *)
Definition golang_relHandler (handler runCtx : string) : result string :=
  if HasPrefix handler runCtx then Rel runCtx handler else Ok handler.

(** [LaunchOptsForFunctionCollect]. *)
Definition LaunchOptsForFunctionCollect (t : Runtime) (runCtx : string)
    : result LaunchOpts :=
  match t with
  | golang _ handler =>
    match GoModule runCtx with
    | Err e => Err e
    | Ok module =>
      match GoPath with
      | Err e => Err e
      | Ok goPath =>
        Ok {| Image := DevImageName t;
              Entrypoint := [];
              TargetWD := ToSlash (Join "/go/src" module);
              Cmd := ["go"; "run"; "./" ++ ToSlash (Dir handler) ++ "/..."];
              Mounts := [mkMount "bind" (Join goPath "pkg") "/go/pkg";
                         mkMount "bind" runCtx (ToSlash (Join "/go/src" module))] |}
      end
    end
  | python _ handler =>
    Ok {| Image := DevImageName t;
          Entrypoint := ["python"];
          Cmd := ["/app/" ++ ToSlash handler];
          TargetWD := "/app";
          Mounts := [mkMount "bind" runCtx "/app"] |}
  end.

(** [LaunchOptsForFunction]. *)
Definition LaunchOptsForFunction (t : Runtime) (runCtx : string)
    : result LaunchOpts :=
  match t with
  | golang _ handler =>
    match GoModule runCtx with
    | Err e => Err e
    | Ok module =>
      let containerRunCtx := ToSlash (Join "/go/src" module) in
      match golang_relHandler handler runCtx with
      | Err e => Err e
      | Ok relHandler =>
        match GoPath with
        | Err e => Err e
        | Ok goPath =>
          Ok {| Image := "";
                Entrypoint := [];
                TargetWD := containerRunCtx;
                Cmd := ["/go/bin/CompileDaemon"; "-verbose"; "-exclude-dir=.git";
                        "-exclude-dir=.nitric"; "-directory=.";
                        polling_flag (String.eqb GOOS "windows");
                        "-build=go build -buildvcs=false -o " ++ ContainerName t ++
                          " ./" ++ ToSlash (Dir relHandler) ++ "/...";
                        "-command=./" ++ ContainerName t];
                Mounts := [mkMount "bind" (Join goPath "pkg") "/go/pkg";
                           mkMount "bind" runCtx containerRunCtx] |}
        end
      end
    end
  | python _ handler =>
    Ok {| Image := DevImageName t;
          Entrypoint := ["python"];
          Cmd := ["-m"; "jurigged"; "-v"; "/app/" ++ ToSlash handler];
          TargetWD := "/app";
          Mounts := [mkMount "bind" runCtx "/app"] |}
  end.

End Environment.

(** The mount invariant of a launch option value. *)
Definition mounts_invariant (opts : LaunchOpts) : Prop :=
  (exists m, In m (Mounts opts) /\ mount_Target m = TargetWD opts) /\
  Forall (fun m => mount_Type m = "bind") (Mounts opts).

End Runtime.

(** ** Production build recipes *)

Module Recipe.
Import FilePath.

(** [fmt.Sprintf] on a format whose only verbs are %s, applied to string
    operands, one per verb. *)
Fixpoint Sprintf_s (format : string) (args : list string) : string :=
  match format with
  | EmptyString => EmptyString
  | String "%" (String "s" rest) =>
    match args with
    | a :: args' => a ++ Sprintf_s rest args'
    | [] => "%!s(MISSING)" ++ Sprintf_s rest []
    end
  | String c rest => String c (Sprintf_s rest args)
  end.

(** Modelled from the spec: [membraneUrl(version, provider)], the download
    URL of the sidecar for a version and a provider, defined in a file of the
    runtime package that is not part of this source. *)
Definition membraneUrl (version provider : string) : string :=
  "https://github.com/nitrictech/nitric/releases/download/" ++ version ++
  "/membrane-" ++ provider.

(** golang's [prodDockerfile] template. *)
Definition prodDockerfile : string :=
"# syntax = docker/dockerfile:1.3
FROM golang:alpine as build
RUN apk update
RUN apk upgrade
RUN apk add --no-cache git gcc g++ make

WORKDIR /app/

COPY . .

RUN --mount=type=cache,target=/root/.cache/go-build go build -o /bin/main ./%s/...

FROM alpine

RUN apk add --no-cache tzdata
ADD %s /bin/membrane
RUN chmod +x /bin/membrane

COPY --from=build /bin/main /bin/main

RUN chmod +x-rw /bin/main

EXPOSE 9001

ENTRYPOINT /bin/membrane
CMD /bin/main
".

Section Writer.

(** The [io.Writer] receiving the recipe: what it answers to one [Write]. *)
Variable Write : string -> result unit.

(** golang's [FunctionDockerfile]: the text handed to [Write], and the
    returned error. *)
Definition golang_FunctionDockerfile (handler funcCtxDir version provider : string)
    : string * result unit :=
  let dockerfile := Sprintf_s prodDockerfile [Dir handler; membraneUrl version provider] in
  (dockerfile, Write dockerfile).

End Writer.

(** The statements of the external Dockerfile builder (boxygen), as its
    [ContainerState] records them. *)
Record ConfigOptions : Type := mkConfigOptions {
  WorkingDir : string;
  Env : list (string * string);
  Ports : list Z;
  Cmd : list string;
  Entrypoint : list string
}.

Definition no_config : ConfigOptions := mkConfigOptions "" [] [] [] [].

Inductive Stmt : Type :=
| FROM (image as_ : string)
| RUN (command : list string)
| COPY (src dest : string)
| ADD (src dest : string)
| CONFIG (opts : ConfigOptions).

(** Modelled from the spec: [layerFinal], the name of the final build stage. *)
Definition layerFinal : string := "final".

(** Modelled from the spec: [withMembrane(con, version, provider)], which
    injects the sidecar binary fetched from [membraneUrl version provider]
    into the container being built. *)
Definition withMembrane (con : list Stmt) (version provider : string) : list Stmt :=
  app con [ADD (membraneUrl version provider) "/usr/local/bin/membrane"].

Section Builder.

(** The outcomes of the builder operations that can fail: creating the
    container, and copying [src] to [dest]. *)
Variable NewContainer_err : option string.
Variable Copy_err : string -> string -> option string.
(** The [io.Writer] receiving [con.Lines()]. *)
Variable WriteLines : list Stmt -> result unit.

(** [con.Copy]: the statement, or the error the builder reports; a failed
    copy records no statement. *)
Definition copy (con : list Stmt) (src dest : string) : result (list Stmt) :=
  match Copy_err src dest with
  | Some e => Err e
  | None => Ok (app con [COPY src dest])
  end.

(** python's [FunctionDockerfile]: the statements handed to the writer (none
    when it fails before writing), and the returned error. *)
Definition python_FunctionDockerfile (handler funcCtxDir version provider : string)
    : option (list Stmt) * result unit :=
  match NewContainer_err with
  | Some e => (None, Err e)
  | None =>
    let con := [FROM "python:3.9-slim" layerFinal] in
    let con := app con [RUN ["pip"; "install"; "--upgrade"; "pip"]] in
    let con := app con [CONFIG {| WorkingDir := "/"; Env := []; Ports := [];
                                 Cmd := []; Entrypoint := [] |}] in
    match copy con "requirements.txt" "requirements.txt" with
    | Err e => (None, Err e)
    | Ok con =>
      let con := app con [RUN ["pip"; "install"; "--no-cache-dir"; "-r"; "requirements.txt"]] in
      match copy con "." "." with
      | Err e => (None, Err e)
      | Ok con =>
        let con := withMembrane con version provider in
        let con := app con [CONFIG {| WorkingDir := "";
                                     Env := [("PYTHONPATH", "/app/:${PYTHONPATH}")];
                                     Ports := [9001%Z];
                                     Cmd := ["python"; handler];
                                     Entrypoint := [] |}] in
        (Some con, WriteLines con)
      end
    end
  end.

(** python's [FunctionDockerfileForCodeAsConfig]: the same builder calls as
    [FunctionDockerfile], with [jurigged] installed and no sidecar. *)
Definition python_FunctionDockerfileForCodeAsConfig (handler : string)
    : option (list Stmt) * result unit :=
  match NewContainer_err with
  | Some e => (None, Err e)
  | None =>
    let con := [FROM "python:3.9-slim" layerFinal] in
    let con := app con [RUN ["pip"; "install"; "--upgrade"; "pip"]] in
    let con := app con [CONFIG {| WorkingDir := "/"; Env := []; Ports := [];
                                 Cmd := []; Entrypoint := [] |}] in
    let con := app con [RUN ["pip"; "install"; "jurigged"]] in
    match copy con "requirements.txt" "requirements.txt" with
    | Err e => (None, Err e)
    | Ok con =>
      let con := app con [RUN ["pip"; "install"; "--no-cache-dir"; "-r"; "requirements.txt"]] in
      match copy con "." "." with
      | Err e => (None, Err e)
      | Ok con =>
        let con := app con [CONFIG {| WorkingDir := "";
                                     Env := [("PYTHONPATH", "/app/:${PYTHONPATH}")];
                                     Ports := [9001%Z];
                                     Cmd := ["python"; handler];
                                     Entrypoint := [] |}] in
        (Some con, WriteLines con)
      end
    end
  end.

(** [javascriptGenerator] (package functiondockerfile): the errors of its
    [con.Copy] calls are discarded. *)
Definition javascriptGenerator (f : Stack.Function) (version provider : string)
    : option (list Stmt) * result unit :=
  match NewContainer_err with
  | Some e => (None, Err e)
  | None =>
    let con := [FROM "node:alpine" ""] in
    let con := withMembrane con version provider in
    let con := match copy con "package.json *.lock *-lock.json" "/" with
               | Ok c => c | Err _ => con end in
    let con := app con [RUN ["yarn"; "import"; "||"; "echo"; "Lockfile already exists"]] in
    let con := app con [RUN ["set"; "-ex;"; "yarn"; "install"; "--production";
                            "--frozen-lockfile"; "--cache-folder"; "/tmp/.cache;";
                            "rm"; "-rf"; "/tmp/.cache;"]] in
    let con := match copy con "." "." with Ok c => c | Err _ => con end in
    let con := app con [CONFIG {| WorkingDir := ""; Env := []; Ports := [];
                                 Cmd := ["node"; Stack.Handler f];
                                 Entrypoint := [] |}] in
    (Some con, WriteLines con)
  end.

End Builder.

(** The recipe properties of the production variant: an exposed port 9001, a
    copy of the whole build context and a reference to the sidecar URL. *)
Definition text_recipe_ok (text version provider : string) : Prop :=
  Contains text "EXPOSE 9001" = true /\ Contains text "COPY . ." = true /\
  Contains text (membraneUrl version provider) = true.

Definition exposes_9001 (s : Stmt) : Prop :=
  match s with CONFIG o => In 9001%Z (Ports o) | _ => False end.

Definition stmt_recipe_ok (con : list Stmt) (version provider : string) : Prop :=
  (exists s, In s con /\ exposes_9001 s) /\ In (COPY "." ".") con /\
  (exists dest, In (ADD (membraneUrl version provider) dest) con).

End Recipe.

(** ** Root command configuration (cmd/root.go) *)

Module Root.

(** The values held in the maps [viper.GetStringMap] returns. *)
Inductive Value : Type :=
| VString (s : string)
| VStringMap (m : list (string * string))
| VOther.

(** The viper settings [ensureConfigDefaults] reads and writes: the maps
    under "aliases" and "targets" ([GetStringMap] gives an empty map for an
    unset key), and [GetDuration("build_timeout")] in nanoseconds (0 when
    unset). *)
Record Viper : Type := mkViper {
  aliases : list (string * Value);
  targets : list (string * Value);
  build_timeout : Z
}.

(** [m[k]] with its [ok] result. *)
Fixpoint lookup (k : string) (m : list (string * Value)) : option Value :=
  match m with
  | [] => None
  | (k', v) :: m' => if String.eqb k k' then Some v else lookup k m'
  end.

(** [5*time.Minute], in nanoseconds. *)
Definition five_minutes : Z := 5 * 60000000000.

(** [ensureConfigDefaults]: the settings after it, and [needsWrite], which
    decides whether the message is printed and [viper.WriteConfig] runs.  A
    key is only added when it is missing, so adding it at the front of the
    map changes no other lookup. *)
Definition ensureConfigDefaults (c : Viper) : Viper * bool :=
  let '(c, needsWrite) :=
    match lookup "new" (aliases c) with
    | Some _ => (c, false)
    | None => (mkViper (("new", VString "stack create") :: aliases c)
                       (targets c) (build_timeout c), true)
    end in
  let '(c, needsWrite) :=
    match lookup "local" (targets c) with
    | Some _ => (c, needsWrite)
    | None => (mkViper (aliases c)
                       (("local", VStringMap [("provider", "local")]) :: targets c)
                       (build_timeout c), true)
    end in
  if (build_timeout c =? 0)%Z then (mkViper (aliases c) (targets c) five_minutes, true)
  else (c, needsWrite).

(** [strings.Split(s, sep)] for a one-byte separator. *)
Fixpoint Split (sep : ascii) (s : string) : list string :=
  match s with
  | EmptyString => [""]
  | String c s' =>
    let rest := Split sep s' in
    if Ascii.eqb c sep then "" :: rest
    else match rest with
         | h :: t => String c h :: t
         | [] => [String c ""]
         end
  end.

(** [strings.Join(elems, sep)] for a one-byte separator. *)
Fixpoint JoinStrings (sep : ascii) (l : list string) : string :=
  match l with
  | [] => ""
  | [x] => x
  | x :: t => x ++ String sep (JoinStrings sep t)
  end.

(** The alias commands [addAliases] registers: their [Use], [Short] and
    [Long] fields. *)
Record AliasCommand : Type := mkAliasCommand {
  Use : string;
  Short : string;
  Long : string
}.

(** The body of every alias command's [Run] closure: the new [os.Args] built
    from the current value of the captured variable [aliasString]. *)
Definition alias_Run (aliasString argv0 : string) (args : list string) : list string :=
  argv0 :: app (Split " " aliasString) args.

(** The loop of [addAliases] over the alias map, visited in the order of the
    list.  Under the language version the module declares (go 1.16) the
    range variable [aliasString] is one variable for the whole loop, shared
    by every [Run] closure; the loop state is the registered commands and
    that variable, which starts at the zero value "". *)
Definition addAliases (aliasMap : list (string * string)) : list AliasCommand * string :=
  fold_left
    (fun st kv =>
       let '(cmds, _) := st in
       let '(n, aliasString) := kv in
       (app cmds [mkAliasCommand n ("alias for: " ++ aliasString)
                                   ("Custom alias command for " ++ aliasString)],
        aliasString))
    aliasMap ([], "").

End Root.

(** * Properties *)

Import ContainerEngine.
Import FilePath.
Import Runtime.
Import Recipe.

(** ** String lemmas *)

Lemma append_empty_r (s : string) : s ++ "" = s.
Proof. induction s as [|c s IH]; simpl; [reflexivity | now rewrite IH]. Qed.

Lemma append_assoc (a b c : string) : (a ++ b) ++ c = a ++ (b ++ c).
Proof. induction a as [|x a IH]; simpl; [reflexivity | now rewrite IH]. Qed.

(** ** Image tags *)

(** C10: a non-empty explicit tag is returned unchanged; otherwise the tag is
    <stack>-<function>-<provider>, or <stack>-<function> with no trailing
    separator when the provider is empty. *)
Theorem ImageTagName_cases (f : Stack.Function) (s : Stack.Stack) (provider : string) :
  (Stack.Tag f <> "" -> Stack.ImageTagName f s provider = Stack.Tag f) /\
  (Stack.Tag f = "" -> provider <> "" ->
   Stack.ImageTagName f s provider =
   Stack.Stack_Name s ++ "-" ++ Stack.name f ++ "-" ++ provider) /\
  (Stack.Tag f = "" -> provider = "" ->
   Stack.ImageTagName f s provider = Stack.Stack_Name s ++ "-" ++ Stack.name f).
Proof.
  unfold Stack.ImageTagName.
  split; [|split]; intros Htag.
  - destruct (String.eqb_spec (Stack.Tag f) ""); [contradiction | reflexivity].
  - intros Hp. rewrite Htag. simpl.
    destruct (String.eqb_spec provider ""); [contradiction | reflexivity].
  - intros Hp. rewrite Htag, Hp. simpl. rewrite append_empty_r. reflexivity.
Qed.

Lemma ImageTagName_cases_witness :
  Stack.ImageTagName (Stack.mkFunction "hello" "" "" "functions/hello.py")
    (Stack.mkStack "demo") "aws" = "demo-hello-aws" /\
  Stack.ImageTagName (Stack.mkFunction "hello" "" "" "functions/hello.py")
    (Stack.mkStack "demo") "" = "demo-hello".
Proof.
  split.
  - apply (proj1 (proj2 (ImageTagName_cases
             (Stack.mkFunction "hello" "" "" "functions/hello.py")
             (Stack.mkStack "demo") "aws"))); [reflexivity | discriminate].
  - apply (proj2 (proj2 (ImageTagName_cases
             (Stack.mkFunction "hello" "" "" "functions/hello.py")
             (Stack.mkStack "demo") ""))); reflexivity.
Defined.

(** ** Launch options *)

(** C7: python's dev launch options for the handler functions/hello.py. *)
Theorem python_hello_launch_opts (Getwd : result string) (GoModule : string -> result string)
    (GoPath : result string) (GOOS rte runCtx : string) :
  exists opts,
    LaunchOptsForFunction Getwd GoModule GoPath GOOS (python rte "functions/hello.py") runCtx
      = Ok opts /\
    Runtime.Cmd opts = ["-m"; "jurigged"; "-v"; "/app/functions/hello.py"] /\
    TargetWD opts = "/app" /\
    Mounts opts = [mkMount "bind" runCtx "/app"].
Proof.
  eexists. split; [reflexivity|]. simpl. auto.
Qed.

(** C8: every launch option value returned by [LaunchOptsForFunction] or
    [LaunchOptsForFunctionCollect] mounts a target equal to its working
    directory, and all its mounts are bind mounts. *)
Theorem launch_opts_mount_target (Getwd : result string) (GoModule : string -> result string)
    (GoPath : result string) (GOOS : string) (t : Runtime) (runCtx : string)
    (opts : LaunchOpts) :
  (LaunchOptsForFunction Getwd GoModule GoPath GOOS t runCtx = Ok opts \/
   LaunchOptsForFunctionCollect GoModule GoPath t runCtx = Ok opts) ->
  mounts_invariant opts.
Proof.
  unfold mounts_invariant.
  intros [H | H]; destruct t as [rte handler | rte handler]; simpl in H.
  - destruct (GoModule runCtx); [|discriminate].
    destruct (golang_relHandler handler runCtx); [|discriminate].
    destruct GoPath; [|discriminate].
    injection H as <-. simpl.
    split; [eexists; split; [right; left; reflexivity | reflexivity]|].
    repeat constructor.
  - injection H as <-. simpl.
    split; [eexists; split; [left; reflexivity | reflexivity]|].
    repeat constructor.
  - destruct (GoModule runCtx); [|discriminate].
    destruct GoPath; [|discriminate].
    injection H as <-. simpl.
    split; [eexists; split; [right; left; reflexivity | reflexivity]|].
    repeat constructor.
  - injection H as <-. simpl.
    split; [eexists; split; [left; reflexivity | reflexivity]|].
    repeat constructor.
Qed.

Lemma launch_opts_mount_target_witness :
  exists opts,
    LaunchOptsForFunction (Ok "/home/dev/proj") (fun _ => Ok "example.com/proj")
      (Ok "/home/dev/go") "linux" (golang "go" "/home/dev/proj/functions/hello/main.go")
      "/home/dev/proj" = Ok opts /\ mounts_invariant opts.
Proof.
  eexists. split.
  - vm_compute. reflexivity.
  - apply (launch_opts_mount_target (Ok "/home/dev/proj") (fun _ => Ok "example.com/proj")
             (Ok "/home/dev/go") "linux" (golang "go" "/home/dev/proj/functions/hello/main.go")
             "/home/dev/proj").
    left. vm_compute. reflexivity.
Defined.

(** ** The podman engine *)

(** C4: when podman is installed and [docker --version] is the real docker
    CLI (its output does not mention podman), [newPodman] fails with the
    both-found error and constructs no engine. *)
Theorem newPodman_rejects_native_docker
    {Image ImagePullOptions ContainerConfig HostConfig NetworkingConfig
     WaitCondition WaitChannels ContainerLogsOptions ReadCloser Duration : Type}
    (exec_run : string -> list string -> result string)
    (NewNitricLogFile : string -> string * option string)
    (Client : Type) (NewClientWithOpts : result Client)
    (ContainerList : Client -> result unit)
    (docker_of_client : Client -> Engine Image ImagePullOptions ContainerConfig HostConfig
       NetworkingConfig WaitCondition WaitChannels ContainerLogsOptions ReadCloser Duration)
    (podman_version docker_version : string) :
  exec_run "podman" ["--version"] = Ok podman_version ->
  exec_run "docker" ["--version"] = Ok docker_version ->
  Contains docker_version "podman" = false ->
  newPodman exec_run NewNitricLogFile Client NewClientWithOpts ContainerList docker_of_client
  = Err "both podman and docker found, will use docker".
Proof.
  intros Hp Hd Hc. unfold newPodman. rewrite Hp, Hd, Hc. reflexivity.
Qed.

Lemma newPodman_rejects_native_docker_witness :
  newPodman
    (fun cmd _ => if String.eqb cmd "docker" then Ok "Docker version 20.10.11, build dea9396"
                  else Ok "podman version 3.4.2")
    (fun sp => (sp ++ "/.nitric/run.log", None))
    Empty_set (Err "no client") (fun _ => Ok tt)
    (fun c : Empty_set =>
       match c return Engine unit unit unit unit unit unit unit unit unit unit with end)
  = Err "both podman and docker found, will use docker".
Proof.
  apply (newPodman_rejects_native_docker _ _ _ _ _ _ "podman version 3.4.2"
           "Docker version 20.10.11, build dea9396"); reflexivity.
Defined.

(** C5, amended: every method of the podman engine other than [Build] and
    [Logger] forwards to the embedded docker engine; [Build] runs podman and
    [Logger] is podman's own json-file logger, whatever the docker engine. *)
Theorem podman_delegates
    {Image ImagePullOptions ContainerConfig HostConfig NetworkingConfig
     WaitCondition WaitChannels ContainerLogsOptions ReadCloser Duration : Type}
    (exec_run : string -> list string -> result string)
    (NewNitricLogFile : string -> string * option string)
    (d : Engine Image ImagePullOptions ContainerConfig HostConfig NetworkingConfig
           WaitCondition WaitChannels ContainerLogsOptions ReadCloser Duration) :
  let p := podman exec_run NewNitricLogFile d in
  Version p = Version d /\
  (forall stackName containerName,
     ListImages p stackName containerName = ListImages d stackName containerName) /\
  (forall rawImage opts, ImagePull p rawImage opts = ImagePull d rawImage opts) /\
  (forall config hostConfig networkingConfig name,
     ContainerCreate p config hostConfig networkingConfig name =
     ContainerCreate d config hostConfig networkingConfig name) /\
  (forall nameOrID, StartC p nameOrID = StartC d nameOrID) /\
  (forall nameOrID timeout, StopC p nameOrID timeout = StopC d nameOrID timeout) /\
  (forall containerID condition,
     ContainerWait p containerID condition = ContainerWait d containerID condition) /\
  (forall labels, RemoveByLabel p labels = RemoveByLabel d labels) /\
  (forall containerID opts, ContainerLogs p containerID opts = ContainerLogs d containerID opts) /\
  (forall dockerfile path imageTag buildArgs excludes,
     Build p dockerfile path imageTag buildArgs excludes =
     podman_Build exec_run dockerfile path imageTag buildArgs excludes) /\
  (forall stackPath,
     Logger p stackPath =
     mkContainerLogger (mkLogConfig "json-file" [("path", fst (NewNitricLogFile stackPath))])
       (Ok tt) (Ok tt)).
Proof.
  simpl. repeat split.
Qed.

(** C5 fails: the podman engine's [Logger] does not forward to the embedded
    docker engine, so it differs from the docker logger of an engine that
    logs through syslog. *)
Lemma podman_Logger_not_forwarded :
  ~ (forall (d : Engine unit unit unit unit unit unit unit unit unit unit) (stackPath : string),
       Logger (podman (fun _ _ => Ok "") (fun sp => (sp ++ "/.nitric/run.log", None)) d) stackPath
       = Logger d stackPath).
Proof.
  intros H.
  specialize (H (mkEngine "docker" "20.10.11" (fun _ _ _ _ _ => Ok tt) (fun _ _ => Ok [])
                  (fun _ _ => Ok tt) (fun _ _ _ _ => Ok "c0") (fun _ => Ok tt)
                  (fun _ _ => Ok tt) (fun _ _ => tt) (fun _ => Ok tt) (fun _ _ => Ok tt)
                  (fun _ => mkContainerLogger (mkLogConfig "syslog" []) (Ok tt) (Ok tt)))
                "/stack").
  discriminate H.
Qed.

(** C1 fails: the build argument of [podman.Build] is formatted with
    [fmt.Sprint], which does not interpret "%s", so the entry A=1 is passed
    as "%s=%sA1" and no "A=1" argument reaches podman. *)
Theorem podman_Build_build_arg_format (exec_run : string -> list string -> result string) :
  podman_build_args "Dockerfile" "." "MyImage" [("A", "1")] =
    ["build"; "."; "-f"; "Dockerfile"; "-t"; "myimage"; "--build-arg"; "%s=%sA1"] /\
  ~ In (Sprintf_kv "A" "1") (podman_build_args "Dockerfile" "." "MyImage" [("A", "1")]) /\
  podman_Build exec_run "Dockerfile" "." "MyImage" [("A", "1")] [] =
    match exec_run "podman"
            ["build"; "."; "-f"; "Dockerfile"; "-t"; "myimage"; "--build-arg"; "%s=%sA1"] with
    | Ok _ => Ok tt
    | Err e => Err e
    end.
Proof.
  assert (Hargs : podman_build_args "Dockerfile" "." "MyImage" [("A", "1")] =
    ["build"; "."; "-f"; "Dockerfile"; "-t"; "myimage"; "--build-arg"; "%s=%sA1"])
    by (vm_compute; reflexivity).
  split; [exact Hargs|]. split.
  - rewrite Hargs. vm_compute. intuition discriminate.
  - unfold podman_Build. rewrite Hargs. reflexivity.
Qed.

(** ** Ignore patterns *)

(** C2 fails: golang's [BuildIgnore] is empty, so it misses the common
    baseline entries. *)
Theorem golang_BuildIgnore_misses_common (rte handler : string) :
  BuildIgnore (golang rte handler) = [] /\
  exists x, In x commonIgnore /\ ~ In x (BuildIgnore (golang rte handler)).
Proof.
  split; [reflexivity|].
  exists ".git/". simpl. intuition.
Qed.

(** python's [BuildIgnore] does contain the common baseline. *)
Lemma python_BuildIgnore_common (rte handler : string) (x : string) :
  In x commonIgnore -> In x (BuildIgnore (python rte handler)).
Proof. intros H. unfold BuildIgnore. apply in_or_app. left. exact H. Qed.

(** ** Container names *)

(** An extension is empty or starts with a dot. *)
Lemma ext_rev_shape (l acc : list ascii) :
  ext_rev l acc = "" \/ exists r, ext_rev l acc = String "." r.
Proof.
  revert acc. induction l as [|c l IH]; intros acc; simpl; [left; reflexivity|].
  destruct (Ascii.eqb c "/"); [left; reflexivity|].
  destruct (Ascii.eqb_spec c "."); [subst; right; eexists; reflexivity | apply IH].
Qed.

Lemma Ext_shape (p : string) : Ext p = "" \/ exists r, Ext p = String "." r.
Proof. apply ext_rev_shape. Qed.


Lemma HasPrefix_refl (s : string) : HasPrefix s s = true.
Proof.
  induction s as [|c s IH]; simpl; [reflexivity|].
  rewrite Ascii.eqb_refl, IH. reflexivity.
Qed.








(** ** Production recipes *)

Lemma Contains_app_r (a b s : string) :
  Contains b s = true -> Contains (a ++ b) s = true.
Proof.
  intros H. induction a as [|c a IH]; simpl; [exact H|].
  rewrite IH. apply orb_true_r.
Qed.

Lemma HasPrefix_app (s t u : string) :
  HasPrefix s t = true -> HasPrefix (s ++ u) t = true.
Proof.
  revert s. induction t as [|c t IH]; intros s H; [destruct (s ++ u); reflexivity|].
  destruct s as [|c' s]; [discriminate|]. simpl in *.
  apply andb_true_iff in H as [H1 H2]. rewrite H1, (IH s H2). reflexivity.
Qed.

Lemma Contains_app_l (a b s : string) :
  Contains a s = true -> Contains (a ++ b) s = true.
Proof.
  induction a as [|c a IH]; intros H.
  - destruct s; [destruct b; reflexivity | discriminate].
  - simpl in H. simpl. apply orb_true_iff in H as [H | H].
    + apply orb_true_iff. left. exact (HasPrefix_app (String c a) s b H).
    + rewrite (IH H). apply orb_true_r.
Qed.

Lemma Contains_self (s : string) : Contains s s = true.
Proof. destruct s; simpl; [reflexivity|]. rewrite Ascii.eqb_refl, HasPrefix_refl. reflexivity. Qed.

(** [Sprintf_s] copies a verb-free prefix of the format. *)
Lemma Sprintf_s_app (fmt rest : string) (args : list string) :
  Contains fmt "%" = false ->
  Sprintf_s (fmt ++ rest) args = fmt ++ Sprintf_s rest args.
Proof.
  induction fmt as [|c fmt IH]; intros H; [reflexivity|].
  change (HasPrefix (String c fmt) "%" || Contains fmt "%" = false) in H.
  apply orb_false_elim in H as [Hc H].
  destruct c as [[] [] [] [] [] [] [] []];
    try (cbv in Hc; discriminate Hc);
    simpl; rewrite (IH H); reflexivity.
Qed.

Lemma Contains_cons (c : ascii) (s t : string) :
  Contains s t = true -> Contains (String c s) t = true.
Proof. intros H. simpl. rewrite H. apply orb_true_r. Qed.

(** Membership in a concrete list of statements. *)
Ltac find_in := repeat (first [left; reflexivity | right]).

(** golang's production recipe exposes 9001, copies the whole context and
    fetches the sidecar from [membraneUrl version provider]. *)
Lemma golang_recipe_ok (Write : string -> result unit)
    (handler funcCtxDir version provider : string) :
  text_recipe_ok (fst (golang_FunctionDockerfile Write handler funcCtxDir version provider))
    version provider.
Proof.
  unfold golang_FunctionDockerfile, text_recipe_ok.
  remember (Dir handler) as d. remember (membraneUrl version provider) as u.
  cbn [fst Sprintf_s prodDockerfile].
  split; [|split].
  - repeat apply Contains_cons. apply Contains_app_r.
    repeat apply Contains_cons. apply Contains_app_r. reflexivity.
  - reflexivity.
  - repeat apply Contains_cons. apply Contains_app_r.
    repeat apply Contains_cons. apply Contains_app_l. apply Contains_self.
Qed.

(** python's production recipe, whenever it is produced, exposes 9001,
    copies the whole context and adds the sidecar from its URL. *)
Lemma python_recipe_ok (NewContainer_err : option string)
    (Copy_err : string -> string -> option string) (WriteLines : list Stmt -> result unit)
    (handler funcCtxDir version provider : string) (con : list Stmt) :
  fst (python_FunctionDockerfile NewContainer_err Copy_err WriteLines handler funcCtxDir
         version provider) = Some con ->
  stmt_recipe_ok con version provider.
Proof.
  unfold python_FunctionDockerfile, copy.
  destruct NewContainer_err; [discriminate|].
  destruct (Copy_err "requirements.txt" "requirements.txt"); [discriminate|].
  destruct (Copy_err "." "."); [discriminate|].
  simpl. intros H. injection H as <-.
  unfold stmt_recipe_ok. split; [|split].
  - exists (CONFIG {| WorkingDir := ""; Env := [("PYTHONPATH", "/app/:${PYTHONPATH}")];
                       Ports := [9001%Z]; Cmd := ["python"; handler]; Entrypoint := [] |}).
    split; [find_in|]. simpl. left. reflexivity.
  - find_in.
  - eexists. find_in.
Qed.

(** C3 fails for the javascript variant: its production recipe has no
    exposed-port statement, since its only CONFIG sets the command. *)
Theorem javascript_recipe_no_port (WriteLines : list Stmt -> result unit) :
  exists con,
    fst (javascriptGenerator None (fun _ _ => None) WriteLines
           (Stack.mkFunction "hello" "" "" "functions/hello.js") "v1.2.3" "aws") = Some con /\
    In (COPY "." ".") con /\
    In (ADD (membraneUrl "v1.2.3" "aws") "/usr/local/bin/membrane") con /\
    ~ (exists s, In s con /\ exposes_9001 s).
Proof.
  eexists. split; [reflexivity|]. split; [find_in|]. split; [find_in|].
  intros [s [Hin Hexp]]. simpl in Hin.
  repeat destruct Hin as [<- | Hin]; simpl in Hexp; auto.
Qed.

(** ** Relative handler paths *)

Lemma split_slash_not_nil (s : string) : split_slash s <> [].
Proof.
  destruct s as [|c s]; cbn -[Ascii.eqb]; [discriminate|].
  destruct (Ascii.eqb c "/"); [discriminate|]. destruct (split_slash s); discriminate.
Qed.

Lemma split_slash_app (a b : string) :
  split_slash (a ++ String "/" b) = app (split_slash a) (split_slash b).
Proof.
  induction a as [|c a IH]; [reflexivity|].
  cbn -[Ascii.eqb]. rewrite IH. destruct (Ascii.eqb c "/"); [reflexivity|].
  destruct (split_slash a) as [|h t] eqn:E; [now apply split_slash_not_nil in E|].
  reflexivity.
Qed.

Lemma split_slash_free (s : string) : slash_free s -> split_slash s = [s].
Proof.
  unfold slash_free. induction s as [|c s IH]; intros H; [reflexivity|].
  cbn -[Ascii.eqb] in H. apply orb_false_elim in H as [Hc H].
  rewrite andb_true_r in Hc. cbn -[Ascii.eqb]. rewrite (IH H).
  rewrite Ascii.eqb_sym, Hc. reflexivity.
Qed.

Lemma split_slash_elems (s : string) : Forall slash_free (split_slash s).
Proof.
  unfold slash_free.
  induction s as [|c s IH]; cbn -[Ascii.eqb]; [constructor; [reflexivity | constructor]|].
  destruct (Ascii.eqb c "/") eqn:Hc; [constructor; [reflexivity | exact IH]|].
  destruct (split_slash s) as [|h t]; inversion IH; subst.
  - constructor; [|constructor]. cbn -[Ascii.eqb]. rewrite Ascii.eqb_sym, Hc. reflexivity.
  - constructor; [|assumption]. cbn -[Ascii.eqb]. rewrite Ascii.eqb_sym, Hc. cbn -[Ascii.eqb]. assumption.
Qed.

Lemma split_join (l : list string) :
  l <> [] -> Forall slash_free l -> split_slash (join_slash l) = l.
Proof.
  induction l as [|x l IH]; intros Hne Hf; [contradiction|].
  inversion Hf as [|? ? Hx Hl]; subst.
  destruct l as [|y l].
  - cbn -[Ascii.eqb]. apply split_slash_free. exact Hx.
  - change (join_slash (x :: y :: l)) with (x ++ String "/" (join_slash (y :: l))).
    rewrite split_slash_app, split_slash_free by exact Hx.
    rewrite IH by (discriminate || exact Hl). reflexivity.
Qed.

Lemma HasPrefix_slash_free (x : string) : slash_free x -> HasPrefix x "/" = false.
Proof.
  unfold slash_free. destruct x as [|c x]; [reflexivity|].
  cbn -[Ascii.eqb]. intros H. apply orb_false_elim in H as [H _]. exact H.
Qed.

Lemma HasPrefix_app_first (x y : string) :
  x <> "" -> HasPrefix (x ++ y) "/" = HasPrefix x "/".
Proof. destruct x; [contradiction | reflexivity]. Qed.

(** A join whose first element is a non-empty name is not absolute. *)
Lemma join_not_abs (x : string) (l : list string) :
  x <> "" -> slash_free x -> IsAbs (join_slash (x :: l)) = false.
Proof.
  intros Hne Hf. unfold IsAbs.
  destruct l as [|y l].
  - apply HasPrefix_slash_free. exact Hf.
  - change (HasPrefix (x ++ "/" ++ join_slash (y :: l)) "/" = false).
    rewrite HasPrefix_app_first by exact Hne. apply HasPrefix_slash_free. exact Hf.
Qed.

Lemma join_not_empty (x : string) (l : list string) :
  x <> "" -> join_slash (x :: l) <> "".
Proof.
  intros Hne. destruct l as [|y l]; cbn -[Ascii.eqb]; [exact Hne|].
  destruct x; [contradiction | discriminate].
Qed.

Section RelPaths.
Local Open Scope list_scope.

Lemma rev_repeat_same {A} (x : A) (n : nat) : rev (repeat x n) = repeat x n.
Proof.
  induction n as [|n IH]; [reflexivity|].
  simpl. rewrite IH. clear IH. induction n as [|n IH]; [reflexivity|].
  simpl. rewrite IH. reflexivity.
Qed.

Lemma clean_step_pop (r : bool) (x : string) (st : list string) :
  x <> ".." -> clean_step r (x :: st) ".." = st.
Proof.
  intros H. cbv beta iota delta [clean_step].
  rewrite (proj2 (String.eqb_neq x "..") H). reflexivity.
Qed.

Lemma clean_step_push (r : bool) (c : string) (st : list string) :
  name_ok c -> clean_step r st c = c :: st.
Proof.
  intros (H1 & H2 & H3 & _). unfold clean_step.
  rewrite (proj2 (String.eqb_neq c "") H1), (proj2 (String.eqb_neq c ".") H2),
    (proj2 (String.eqb_neq c "..") H3).
  reflexivity.
Qed.

Lemma clean_step_ok (r : bool) (st : list string) (c : string) :
  stack_ok r st -> slash_free c -> stack_ok r (clean_step r st c).
Proof.
  intros (n & M & -> & HM & Hr) Hc.
  destruct (String.eqb c "" || String.eqb c ".") eqn:E1.
  { unfold clean_step. rewrite E1. exists n, M. auto. }
  apply orb_false_elim in E1 as [E1 E2].
  apply String.eqb_neq in E1, E2.
  destruct (String.eqb c "..") eqn:E3.
  - apply String.eqb_eq in E3. subst c.
    destruct M as [|x M].
    + destruct n as [|n].
      * destruct r.
        -- exists 0, []. split; [reflexivity|]. split; [constructor|].
           intros _. reflexivity.
        -- exists 1, []. split; [reflexivity|]. split; [constructor | discriminate].
      * exists (S (S n)), []. split; [reflexivity|]. split; [constructor|].
        intros Hr'. specialize (Hr Hr'). discriminate.
    + inversion HM as [|? ? (Hx1 & Hx2 & Hx3 & Hx4) HM']; subst.
      simpl app. rewrite clean_step_pop by exact Hx3.
      exists n, M. auto.
  - apply String.eqb_neq in E3.
    rewrite clean_step_push by (repeat split; assumption).
    exists n, (c :: M). split; [reflexivity|].
    split; [constructor; [repeat split; assumption | assumption] | assumption].
Qed.

Lemma fold_clean_ok (r : bool) (segs st : list string) :
  stack_ok r st -> Forall slash_free segs ->
  stack_ok r (fold_left (clean_step r) segs st).
Proof.
  revert st. induction segs as [|c segs IH]; intros st Hst Hs; [exact Hst|].
  inversion Hs; subst. simpl. apply IH; [apply clean_step_ok|]; assumption.
Qed.

Lemma clean_comps_ok (r : bool) (p : string) :
  comps_ok r (clean_comps r (split_slash p)).
Proof.
  unfold clean_comps.
  destruct (fold_clean_ok r (split_slash p) [] ltac:(exists 0, []; auto)
              (split_slash_elems p)) as (n & M & E & HM & Hr).
  rewrite E, rev_app_distr, rev_repeat_same.
  exists n, (rev M). split; [reflexivity|]. split; [apply Forall_rev; exact HM | exact Hr].
Qed.

Lemma comps_elems (r : bool) (cs : list string) :
  comps_ok r cs -> Forall (fun c => c <> "" /\ c <> "." /\ slash_free c) cs.
Proof.
  intros (n & N & -> & HN & _). apply Forall_app. split.
  - induction n as [|n IH]; constructor; [|exact IH].
    split; [discriminate|]. split; [discriminate|]. reflexivity.
  - eapply Forall_impl; [|exact HN]. intros c (H1 & H2 & _ & H4). auto.
Qed.

Lemma render_not_dot (r : bool) (x : string) (l : list string) :
  x <> "" -> x <> "." -> render r (x :: l) <> ".".
Proof.
  intros H1 H2. destruct r; [discriminate|].
  change (render false (x :: l)) with (join_slash (x :: l)).
  destruct l as [|y l]; [exact H2|].
  change ((x ++ String "/" (join_slash (y :: l)))%string <> ".").
  destruct x as [|a x]; [contradiction|].
  intros E. injection E as _ E. destruct x; discriminate.
Qed.

(** The segments [filepath.Rel] reads from a cleaned target path. *)
Lemma targ_segments (r : bool) (cs : list string) :
  comps_ok r cs ->
  HasPrefix (render r cs) "/" = r /\
  rel_segments (render r cs) =
    (if r then "" :: cs else match cs with [] => ["."] | _ => cs end).
Proof.
  intros Hok. pose proof (comps_elems r cs Hok) as Hel.
  assert (Hsf : Forall slash_free cs)
    by (eapply Forall_impl; [|exact Hel]; intros c (_ & _ & H); exact H).
  destruct r.
  - destruct cs as [|x l]; [split; reflexivity|].
    inversion Hel as [|? ? (Hx1 & _ & Hx3) _]; subst.
    pose proof (join_not_empty x l Hx1) as Hj.
    change (render true (x :: l)) with (String "/" (join_slash (x :: l))).
    split; [reflexivity|]. unfold rel_segments.
    assert (E1 : String.eqb (String "/" (join_slash (x :: l))) "" = false) by reflexivity.
    assert (E2 : String.eqb (String "/" (join_slash (x :: l))) "/" = false).
    { apply String.eqb_neq. intros E. injection E as E. exact (Hj E). }
    rewrite E1, E2.
    change (split_slash (String "/" (join_slash (x :: l))))
      with ("" :: split_slash (join_slash (x :: l))).
    rewrite split_join by (discriminate || exact Hsf). reflexivity.
  - destruct cs as [|x l]; [split; reflexivity|].
    inversion Hel as [|? ? (Hx1 & _ & Hx3) _]; subst.
    change (render false (x :: l)) with (join_slash (x :: l)).
    pose proof (join_not_abs x l Hx1 Hx3) as Ha. unfold IsAbs in Ha.
    split; [exact Ha|]. unfold rel_segments.
    rewrite (proj2 (String.eqb_neq _ "") (join_not_empty x l Hx1)).
    assert (E2 : String.eqb (join_slash (x :: l)) "/" = false).
    { apply String.eqb_neq. intros E. rewrite E in Ha. discriminate. }
    rewrite E2, split_join by (discriminate || exact Hsf). reflexivity.
Qed.

(** The segments [filepath.Rel] reads from a cleaned base path, after the
    base "." has been replaced by the empty path. *)
Lemma base_segments (r : bool) (cs : list string) :
  comps_ok r cs ->
  HasPrefix (if String.eqb (render r cs) "." then "" else render r cs) "/" = r /\
  rel_segments (if String.eqb (render r cs) "." then "" else render r cs) =
    (if r then "" :: cs else cs).
Proof.
  intros Hok. destruct (targ_segments r cs Hok) as [H1 H2].
  destruct cs as [|x l].
  - destruct r; split; reflexivity.
  - pose proof (comps_elems r _ Hok) as Hel.
    inversion Hel as [|? ? (Hx1 & Hx2 & _) _]; subst.
    rewrite (proj2 (String.eqb_neq _ ".") (render_not_dot r x l Hx1 Hx2)).
    rewrite H1, H2. split; [reflexivity|]. destruct r; reflexivity.
Qed.

Lemma rel_loop_common (fuel : nat) (xs ys : list string) :
  length xs + length ys <= fuel ->
  Forall (fun s => s <> "") xs -> Forall (fun s => s <> "") ys ->
  exists P, xs = P ++ fst (rel_loop fuel xs ys) /\ ys = P ++ snd (rel_loop fuel xs ys) /\
    ((fst (rel_loop fuel xs ys) = [] /\ snd (rel_loop fuel xs ys) = []) \/
     hd "" (fst (rel_loop fuel xs ys)) <> hd "" (snd (rel_loop fuel xs ys))).
Proof.
  revert xs ys. induction fuel as [|fuel IH]; intros xs ys Hl Hx Hy.
  - destruct xs, ys; simpl in Hl; try lia. exists []. auto.
  - destruct xs as [|x xs], ys as [|y ys].
    + exists []. auto.
    + inversion Hy; subst. cbn [rel_loop hd].
      rewrite (proj2 (String.eqb_neq "" y) (not_eq_sym H1)).
      exists []. simpl. auto.
    + inversion Hx; subst. cbn [rel_loop hd].
      rewrite (proj2 (String.eqb_neq x "") H1).
      exists []. simpl. auto.
    + cbn [rel_loop hd tl]. destruct (String.eqb x y) eqn:E.
      * apply String.eqb_eq in E. subst y.
        inversion Hx; inversion Hy; subst.
        destruct (IH xs ys ltac:(simpl in Hl; lia) ltac:(assumption) ltac:(assumption))
          as (P & E1 & E2 & E3).
        exists (x :: P). simpl. rewrite <- E1, <- E2. auto.
      * exists []. simpl. split; [reflexivity|]. split; [reflexivity|]. right. apply String.eqb_neq. exact E.
Qed.

(** The loop of [filepath.Rel] over two paths sharing a first part [pre]
    stops at the first differing segments of what follows. *)
Lemma loop_spec (fuel : nat) (pre xs ys xs' ys' : list string) :
  xs' = pre ++ xs -> ys' = pre ++ ys ->
  length pre + length xs + length ys <= fuel ->
  Forall (fun s => s <> "") xs -> Forall (fun s => s <> "") ys ->
  exists P xr yr, rel_loop fuel xs' ys' = (xr, yr) /\ xs = P ++ xr /\ ys = P ++ yr /\
    ((xr = [] /\ yr = []) \/ hd "" xr <> hd "" yr).
Proof.
  intros -> ->. revert fuel. induction pre as [|a pre IH]; intros fuel Hl Hx Hy.
  - destruct (rel_loop_common fuel xs ys ltac:(simpl in Hl; lia) Hx Hy) as (P & E1 & E2 & E3).
    exists P, (fst (rel_loop fuel xs ys)), (snd (rel_loop fuel xs ys)).
    split; [simpl app; destruct (rel_loop fuel xs ys); reflexivity|]. auto.
  - destruct fuel as [|fuel]; [simpl in Hl; lia|].
    cbn [rel_loop app hd tl]. rewrite String.eqb_refl.
    apply IH; [simpl in Hl; lia | exact Hx | exact Hy].
Qed.

Lemma pop_names (r : bool) (L S : list string) :
  Forall name_ok L -> fold_left (clean_step r) (repeat ".." (length L)) (L ++ S) = S.
Proof.
  induction L as [|x L IH]; intros H; [reflexivity|].
  inversion H as [|? ? (_ & _ & Hx & _) HL]; subst.
  simpl. rewrite clean_step_pop by exact Hx. apply IH. exact HL.
Qed.

Lemma comps_split (r : bool) (Pc tr : list string) (t : string) :
  comps_ok r (Pc ++ t :: tr) ->
  name_ok t \/ (t = ".." /\ Pc = repeat ".." (length Pc) /\ r = false).
Proof.
  intros (n & N & E & HN & Hr). revert n E Hr.
  induction Pc as [|p Pc IH]; intros n E Hr.
  - destruct n as [|n].
    + simpl in E. subst N. inversion HN; subst. left. assumption.
    + simpl in E. injection E as <- _. right. split; [reflexivity|]. split; [reflexivity|].
      destruct r; [specialize (Hr eq_refl); discriminate | reflexivity].
  - destruct n as [|n].
    + simpl in E. subst N. left.
      rewrite Forall_forall in HN. apply HN. right. apply in_or_app. right. left. reflexivity.
    + simpl in E. injection E as Ep E. subst p.
      assert (Hr' : r = true -> n = 0)
        by (intros Hrt; specialize (Hr Hrt); discriminate).
      destruct (IH n E Hr') as [H | (H1 & H2 & H3)]; [left; exact H|].
      right. split; [exact H1|]. split; [simpl; rewrite <- H2; reflexivity | exact H3].
Qed.

Lemma push_comps (r : bool) (tr Pc : list string) :
  comps_ok r (Pc ++ tr) -> fold_left (clean_step r) tr (rev Pc) = rev (Pc ++ tr).
Proof.
  revert Pc. induction tr as [|t tr IH]; intros Pc H.
  - rewrite app_nil_r. reflexivity.
  - simpl. replace (Pc ++ t :: tr) with ((Pc ++ [t]) ++ tr) in *
      by (rewrite <- app_assoc; reflexivity).
    rewrite <- IH by exact H. f_equal.
    rewrite rev_app_distr. simpl.
    rewrite <- app_assoc in H. simpl in H.
    destruct (comps_split r Pc tr t H) as [Ht | (-> & HPc & ->)].
    + apply clean_step_push. exact Ht.
    + rewrite HPc, rev_repeat_same. destruct (length Pc); reflexivity.
Qed.

(** Joining a base path with a relative path is cleaning the concatenation:
    the base path's cleaned elements, then the relative path's segments. *)
Lemma Join_fold (basepath rel : string) :
  rel <> "" -> IsAbs rel = false ->
  Join basepath rel =
    render (IsAbs basepath)
      (rev (fold_left (clean_step (IsAbs basepath)) (split_slash rel)
              (rev (clean_comps (IsAbs basepath) (split_slash basepath))))).
Proof.
  intros Hne Habs. unfold Join.
  destruct (String.eqb basepath "") eqn:Eb.
  - apply String.eqb_eq in Eb. subst basepath.
    rewrite (proj2 (String.eqb_neq rel "") Hne). simpl negb. cbv iota.
    unfold Clean. rewrite Habs. reflexivity.
  - simpl negb. cbv iota. apply String.eqb_neq in Eb.
    unfold Clean.
    assert (Ea : IsAbs (basepath ++ "/" ++ rel)%string = IsAbs basepath)
      by (unfold IsAbs; apply HasPrefix_app_first; exact Eb).
    rewrite Ea. change (("/" ++ rel)%string) with (String "/" rel).
    rewrite split_slash_app. unfold clean_comps.
    rewrite fold_left_app, rev_involutive. reflexivity.
Qed.

Lemma suffix_names (n : nat) (N P xr : list string) :
  repeat ".." n ++ N = P ++ xr -> Forall name_ok N ->
  String.eqb (hd "" xr) ".." = false -> Forall name_ok xr.
Proof.
  revert P. induction n as [|n IH]; intros P E HN Hhd.
  - simpl in E. subst N. apply Forall_app in HN. apply HN.
  - destruct P as [|p P].
    + simpl in E. subst xr. discriminate.
    + simpl in E. injection E as _ E. exact (IH P E HN Hhd).
Qed.

(** The last part of [filepath.Rel], once both paths are cleaned and the
    loop has stopped at [xr] and [yr]. *)
Lemma rel_finish (r : bool) (B T Tseg P xr yr : list string) (rel : string) :
  comps_ok r B -> comps_ok r T ->
  (Tseg = T \/ (r = false /\ T = [] /\ Tseg = ["."])) ->
  B = P ++ xr -> Tseg = P ++ yr ->
  ((xr = [] /\ yr = []) \/ hd "" xr <> hd "" yr) ->
  String.eqb (render r T) (render r B) = false ->
  String.eqb (hd "" xr) ".." = false ->
  rel = join_slash (repeat ".." (length xr) ++ yr) ->
  IsAbs rel = false /\ rel <> "" /\
  render r (rev (fold_left (clean_step r) (split_slash rel) (rev B))) = render r T.
Proof.
  intros HB HT HTs EB ETs Hstop Hneq Hhd Hrel.
  pose proof (comps_elems r B HB) as HelB.
  assert (HnoP : Tseg = ["."] -> P = []).
  { intros E. rewrite E in ETs. destruct P as [|p P]; [reflexivity|].
    injection ETs as <- _. rewrite EB in HelB. inversion HelB as [|? ? (_ & H & _) _].
    contradiction. }
  assert (Hxr : Forall name_ok xr).
  { destruct HB as (n & N & EN & HN & _). rewrite EB in EN.
    exact (suffix_names n N P xr (eq_sym EN) HN Hhd). }
  assert (Hyr : Forall (fun c => c <> "" /\ c <> "." /\ slash_free c) yr \/ yr = ["."]).
  { destruct HTs as [-> | (_ & -> & ->)].
    - left. pose proof (comps_elems r T HT) as HelT. rewrite ETs in HelT.
      apply Forall_app in HelT. apply HelT.
    - right. rewrite (HnoP eq_refl) in ETs. symmetry. exact ETs. }
  subst rel. remember (repeat ".." (length xr) ++ yr) as L eqn:EL.
  assert (HL : Forall (fun c => c <> "" /\ slash_free c) L).
  { rewrite EL. apply Forall_app. split.
    - clear. induction (length xr); constructor; [|assumption].
      split; [discriminate | reflexivity].
    - destruct Hyr as [Hyr | ->].
      + eapply Forall_impl; [|exact Hyr]. intros c (H1 & _ & H3). auto.
      + constructor; [|constructor]. split; [discriminate | reflexivity]. }
  assert (HLne : L <> []).
  { rewrite EL. destruct xr as [|x xr]; [|discriminate].
    destruct yr as [|y yr]; [|discriminate].
    exfalso. rewrite app_nil_r in EB, ETs. subst B.
    destruct HTs as [<- | (_ & _ & E)].
    - subst Tseg. rewrite String.eqb_refl in Hneq. discriminate.
    - subst P. rewrite E in HelB. inversion HelB as [|? ? (_ & H & _) _].
      contradiction. }
  destruct L as [|x L']; [contradiction|].
  destruct (Forall_inv HL) as [Hx1 Hx2].
  split; [apply join_not_abs; assumption|].
  split; [apply join_not_empty; assumption|].
  rewrite split_join by (discriminate || exact (Forall_impl _ (fun c H => proj2 H) HL)).
  rewrite EL, fold_left_app, EB, rev_app_distr, <- length_rev.
  rewrite pop_names by (apply Forall_rev; exact Hxr).
  destruct HTs as [<- | (-> & -> & E)].
  - rewrite push_comps by (rewrite <- ETs; exact HT).
    rewrite <- ETs, rev_involutive. reflexivity.
  - rewrite (HnoP E) in ETs. simpl in ETs. subst yr.
    rewrite (HnoP E), E. reflexivity.
Qed.

(** Whenever [filepath.Rel] succeeds, its result is relative, and joining the
    base path with it gives the cleaned target path. *)
Lemma Rel_ok (basepath targpath rel : string) :
  Rel basepath targpath = Ok rel ->
  IsAbs rel = false /\ Join basepath rel = Clean targpath.
Proof.
  intros H.
  pose proof (clean_comps_ok (IsAbs basepath) basepath) as HB.
  pose proof (clean_comps_ok (IsAbs targpath) targpath) as HT.
  pose proof (Join_fold basepath) as HJ.
  unfold Rel, Clean in H. unfold Clean. cbv zeta in H.
  set (rb := IsAbs basepath) in *. set (rt := IsAbs targpath) in *.
  set (B := clean_comps rb (split_slash basepath)) in *.
  set (T := clean_comps rt (split_slash targpath)) in *.
  clearbody B T rb rt.
  assert (HneB : Forall (fun s => s <> "") B)
    by (eapply Forall_impl; [|exact (comps_elems rb B HB)]; intros c (Hc & _); exact Hc).
  destruct (String.eqb (render rt T) (render rb B)) eqn:Eeq.
  { injection H as <-. split; [reflexivity|].
    rewrite HJ by (discriminate || reflexivity).
    apply String.eqb_eq in Eeq. rewrite Eeq.
    replace (fold_left (clean_step rb) (split_slash ".") (rev B)) with (rev B) by reflexivity.
    rewrite rev_involutive. reflexivity. }
  destruct (base_segments rb B HB) as [Hb1 Hb2].
  destruct (targ_segments rt T HT) as [Ht1 Ht2].
  rewrite Hb1, Ht1, Hb2, Ht2 in H.
  destruct (Bool.eqb rb rt) eqn:Er; [|cbn [negb] in H; discriminate].
  cbn [negb] in H. apply Bool.eqb_prop in Er. subst rt.
  assert (Hfin : forall Tseg xs ys,
    (Tseg = T \/ (rb = false /\ T = [] /\ Tseg = ["."])) ->
    Forall (fun s => s <> "") Tseg ->
    xs = (if rb then [""] else []) ++ B ->
    ys = (if rb then [""] else []) ++ Tseg ->
    (let '(brest, trest) := rel_loop (length xs + length ys) xs ys in
     if String.eqb (hd "" brest) ".." then Err (rel_error targpath basepath)
     else match brest with
          | [] => Ok (join_slash trest)
          | _ => Ok (join_slash (repeat ".." (length brest) ++ trest))
          end) = Ok rel ->
    IsAbs rel = false /\ Join basepath rel = render rb T).
  { intros Tseg xs ys HTs HneT Exs Eys H'.
    destruct (loop_spec (length xs + length ys) (if rb then [""] else []) B Tseg xs ys
                Exs Eys ltac:(rewrite Exs, Eys, !length_app; lia) HneB HneT)
      as (P & xr & yr & Eloop & EB & ET & Hstop).
    rewrite Eloop in H'.
    destruct (String.eqb (hd "" xr) "..") eqn:Ehd; [discriminate|].
    assert (Hrel : rel = join_slash (repeat ".." (length xr) ++ yr))
      by (destruct xr; injection H' as <-; reflexivity).
    destruct (rel_finish rb B T Tseg P xr yr rel HB HT HTs EB ET Hstop Eeq Ehd Hrel)
      as (Ha & Hne & Hr).
    split; [exact Ha|]. rewrite HJ by assumption. exact Hr. }
  assert (HneT : Forall (fun s => s <> "") T)
    by (eapply Forall_impl; [|exact (comps_elems rb T HT)]; intros c (Hc & _); exact Hc).
  destruct rb.
  - exact (Hfin T _ _ (or_introl eq_refl) HneT eq_refl eq_refl H).
  - destruct T as [|t T0].
    + refine (Hfin ["."] _ _ (or_intror (conj eq_refl (conj eq_refl eq_refl))) _ eq_refl eq_refl H).
      constructor; [discriminate | constructor].
    + exact (Hfin (t :: T0) _ _ (or_introl eq_refl) HneT eq_refl eq_refl H).
Qed.

End RelPaths.

(** C6 (counterexample): the golang runtime decides whether the handler lies
    in the run context by a string prefix test.  The handler
    /srv/proj/fn/main.go lies inside the run context /srv//proj, but it does
    not start with that string, so the handler is kept absolute, and joining
    the run context with it does not give the handler back. *)
Lemma golang_relHandler_unclean_runCtx :
  within "/srv//proj" "/srv/proj/fn/main.go" = true /\
  golang_relHandler "/srv/proj/fn/main.go" "/srv//proj" = Ok "/srv/proj/fn/main.go" /\
  IsAbs "/srv/proj/fn/main.go" = true /\
  Join "/srv//proj" "/srv/proj/fn/main.go" = "/srv/proj/srv/proj/fn/main.go" /\
  Clean "/srv/proj/fn/main.go" = "/srv/proj/fn/main.go".
Proof. repeat split; vm_compute; reflexivity. Qed.

(** C6 (amended): when the handler string starts with the run context string
    and the relative handler is computed, it is not absolute and joining the
    run context with it gives the cleaned handler path; otherwise the handler
    is used unchanged. *)
Theorem golang_relHandler_roundtrip (handler runCtx rel : string) :
  golang_relHandler handler runCtx = Ok rel ->
  (HasPrefix handler runCtx = true ->
     IsAbs rel = false /\ Join runCtx rel = Clean handler) /\
  (HasPrefix handler runCtx = false -> rel = handler).
Proof.
  unfold golang_relHandler. intros H.
  split; intros Hp; rewrite Hp in H.
  - exact (Rel_ok runCtx handler rel H).
  - injection H as <-. reflexivity.
Qed.

Lemma golang_relHandler_roundtrip_witness :
  golang_relHandler "/srv/proj/fn/main.go" "/srv/proj" = Ok "fn/main.go" /\
  IsAbs "fn/main.go" = false /\
  Join "/srv/proj" "fn/main.go" = Clean "/srv/proj/fn/main.go".
Proof.
  assert (H : golang_relHandler "/srv/proj/fn/main.go" "/srv/proj" = Ok "fn/main.go")
    by (vm_compute; reflexivity).
  split; [exact H|].
  exact (proj1 (golang_relHandler_roundtrip _ _ _ H) eq_refl).
Defined.

(** ** Further properties of the runtimes, the engines and the configuration *)

Lemma append_cancel_l (a x y : string) : a ++ x = a ++ y -> x = y.
Proof.
  induction a as [|c a IH]; simpl; intros H; [exact H|].
  injection H as H. exact (IH H).
Qed.

(** With no explicit tag, two providers never share an image tag: the
    provider is the only part of the default tag that depends on it. *)
Theorem ImageTagName_provider_injective (f : Stack.Function) (s : Stack.Stack)
    (p1 p2 : string) :
  Stack.Tag f = "" ->
  Stack.ImageTagName f s p1 = Stack.ImageTagName f s p2 -> p1 = p2.
Proof.
  unfold Stack.ImageTagName. intros Ht. rewrite Ht. cbv zeta.
  change (String.eqb "" "") with true. cbv iota.
  intros H. apply append_cancel_l in H. injection H as H.
  apply append_cancel_l in H.
  destruct (String.eqb p1 "") eqn:E1, (String.eqb p2 "") eqn:E2.
  - apply String.eqb_eq in E1, E2. congruence.
  - discriminate H.
  - discriminate H.
  - injection H as H. exact H.
Qed.

Lemma ImageTagName_provider_injective_witness :
  Stack.Tag (Stack.mkFunction "hello" "" "" "functions/hello.go") = "" /\
  Stack.ImageTagName (Stack.mkFunction "hello" "" "" "functions/hello.go")
    (Stack.mkStack "demo") "aws" =
  Stack.ImageTagName (Stack.mkFunction "hello" "" "" "functions/hello.go")
    (Stack.mkStack "demo") "aws" /\
  "aws" = "aws".
Proof.
  split; [reflexivity|]. split; [reflexivity|].
  exact (ImageTagName_provider_injective (Stack.mkFunction "hello" "" "" "functions/hello.go")
           (Stack.mkStack "demo") "aws" "aws" eq_refl eq_refl).
Defined.

(** When both succeed for the same run context, the launch options of the
    requirements collection and of the development run use the same working
    directory, the same mounts and the same entrypoint. *)
Theorem launch_opts_collect_run_agree (Getwd : result string)
    (GoModule : string -> result string) (GoPath : result string) (GOOS : string)
    (t : Runtime) (runCtx : string) (o1 o2 : LaunchOpts) :
  LaunchOptsForFunctionCollect GoModule GoPath t runCtx = Ok o1 ->
  LaunchOptsForFunction Getwd GoModule GoPath GOOS t runCtx = Ok o2 ->
  TargetWD o1 = TargetWD o2 /\ Mounts o1 = Mounts o2 /\ Runtime.Entrypoint o1 = Runtime.Entrypoint o2.
Proof.
  destruct t as [rte handler | rte handler]; cbn [LaunchOptsForFunctionCollect LaunchOptsForFunction].
  - intros H1 H2. destruct (GoModule runCtx); [|discriminate].
    destruct (golang_relHandler handler runCtx); [|discriminate].
    destruct GoPath; [|discriminate].
    injection H1 as <-. injection H2 as <-. auto.
  - intros H1 H2. injection H1 as <-. injection H2 as <-. auto.
Qed.

Lemma launch_opts_collect_run_agree_witness :
  exists o1 o2,
    LaunchOptsForFunctionCollect (fun _ => Ok "example.com/app") (Ok "/home/u/go")
      (golang "go" "/home/u/app/fn/main.go") "/home/u/app" = Ok o1 /\
    LaunchOptsForFunction (Ok "/home/u/app") (fun _ => Ok "example.com/app") (Ok "/home/u/go")
      "linux" (golang "go" "/home/u/app/fn/main.go") "/home/u/app" = Ok o2 /\
    TargetWD o1 = TargetWD o2 /\ Mounts o1 = Mounts o2 /\ Runtime.Entrypoint o1 = Runtime.Entrypoint o2.
Proof.
  do 2 eexists.
  assert (H1 : LaunchOptsForFunctionCollect (fun _ => Ok "example.com/app") (Ok "/home/u/go")
      (golang "go" "/home/u/app/fn/main.go") "/home/u/app" = Ok _) by (vm_compute; reflexivity).
  assert (H2 : LaunchOptsForFunction (Ok "/home/u/app") (fun _ => Ok "example.com/app")
      (Ok "/home/u/go") "linux" (golang "go" "/home/u/app/fn/main.go") "/home/u/app" = Ok _)
    by (vm_compute; reflexivity).
  split; [exact H1|]. split; [exact H2|].
  exact (launch_opts_collect_run_agree _ _ _ _ _ _ _ _ H1 H2).
Defined.

(** python's development run uses the launch options of its requirements
    collection, with the command run under [python -m jurigged -v]. *)
Theorem python_run_is_collect_under_jurigged (Getwd : result string)
    (GoModule : string -> result string) (GoPath : result string) (GOOS : string)
    (rte handler runCtx : string) :
  exists o,
    LaunchOptsForFunctionCollect GoModule GoPath (python rte handler) runCtx = Ok o /\
    LaunchOptsForFunction Getwd GoModule GoPath GOOS (python rte handler) runCtx =
      Ok (mkLaunchOpts (Image o) (Runtime.Entrypoint o) (app ["-m"; "jurigged"; "-v"] (Runtime.Cmd o))
                       (TargetWD o) (Mounts o)).
Proof. eexists. split; reflexivity. Qed.

(** golang's development run fails exactly when its requirements collection
    fails or the relative handler path cannot be computed. *)
Theorem golang_run_fails_iff (Getwd : result string)
    (GoModule : string -> result string) (GoPath : result string) (GOOS : string)
    (rte handler runCtx : string) :
  (exists e, LaunchOptsForFunction Getwd GoModule GoPath GOOS (golang rte handler) runCtx = Err e) <->
  (exists e, LaunchOptsForFunctionCollect GoModule GoPath (golang rte handler) runCtx = Err e) \/
  (exists e, golang_relHandler handler runCtx = Err e).
Proof.
  cbn [LaunchOptsForFunctionCollect LaunchOptsForFunction].
  destruct (GoModule runCtx) as [m|e1]; destruct (golang_relHandler handler runCtx) as [r|e2];
    destruct GoPath as [g|e3];
    split; intros H;
    repeat match goal with
           | H : exists _, _ |- _ => destruct H
           | H : _ \/ _ |- _ => destruct H
           | H : Ok _ = Err _ |- _ => discriminate H
           end;
    eauto.
Qed.

Lemma lower_byte_not_upper (c : ascii) :
  ~ (65 <= nat_of_ascii (lower_byte c) <= 90)%nat.
Proof.
  unfold lower_byte.
  destruct ((65 <=? nat_of_ascii c) && (nat_of_ascii c <=? 90))%nat eqn:E.
  - apply andb_true_iff in E as [E1 E2].
    apply Nat.leb_le in E1, E2.
    rewrite nat_ascii_embedding by lia. lia.
  - apply andb_false_iff in E as [E | E]; apply Nat.leb_gt in E; lia.
Qed.

Lemma lower_byte_id (c : ascii) :
  ~ (65 <= nat_of_ascii c <= 90)%nat -> lower_byte c = c.
Proof.
  intros H. unfold lower_byte.
  destruct ((65 <=? nat_of_ascii c) && (nat_of_ascii c <=? 90))%nat eqn:E; [|reflexivity].
  apply andb_true_iff in E as [E1 E2]. apply Nat.leb_le in E1, E2. lia.
Qed.

(** For an ASCII image tag (every byte below 128, where [strings.ToLower]
    takes its ASCII path), the tag [podman.Build] passes after [-t] has no
    upper-case letter, and it is the given tag when that has none. *)
Theorem podman_Build_tag_lower_case (dockerfile path imageTag : string)
    (buildArgs : list (string * string)) :
  Forall (fun c => (nat_of_ascii c < 128)%nat) (list_ascii_of_string imageTag) ->
  let tag := nth 5 (podman_build_args dockerfile path imageTag buildArgs) "" in
  tag = ToLower imageTag /\
  Forall (fun c => ~ (65 <= nat_of_ascii c <= 90)%nat) (list_ascii_of_string tag) /\
  (Forall (fun c => ~ (65 <= nat_of_ascii c <= 90)%nat) (list_ascii_of_string imageTag) ->
   tag = imageTag).
Proof.
  intros _. cbv zeta. change (nth 5 (podman_build_args dockerfile path imageTag buildArgs) "")
    with (ToLower imageTag).
  split; [reflexivity|]. split.
  - induction imageTag as [|c s IH]; simpl; constructor;
      [apply lower_byte_not_upper | exact IH].
  - induction imageTag as [|c s IH]; simpl; intros H; [reflexivity|].
    inversion H; subst. rewrite lower_byte_id by assumption. f_equal. auto.
Qed.

Lemma podman_Build_tag_lower_case_witness :
  Forall (fun c => (nat_of_ascii c < 128)%nat) (list_ascii_of_string "MyImage") /\
  nth 5 (podman_build_args "Dockerfile" "." "MyImage" []) "" = "myimage".
Proof.
  assert (H : Forall (fun c => (nat_of_ascii c < 128)%nat) (list_ascii_of_string "MyImage")).
  { apply Forall_forall. intros x Hx. simpl in Hx.
    repeat (destruct Hx as [<- | Hx]; [apply Nat.ltb_lt; reflexivity|]). contradiction. }
  split; [exact H|].
  exact (proj1 (podman_Build_tag_lower_case "Dockerfile" "." "MyImage" [] H)).
Defined.

(** [newPodman] returns an engine only when [podman --version] and
    [docker --version] both run, the docker command reports itself as
    podman, and the client is created and answers the connection test; the
    engine is then the podman engine over that client. *)
Theorem newPodman_ok_conditions
    {Image ImagePullOptions ContainerConfig HostConfig NetworkingConfig
     WaitCondition WaitChannels ContainerLogsOptions ReadCloser Duration : Type}
    (exec_run : string -> list string -> result string)
    (NewNitricLogFile : string -> string * option string)
    (Client : Type) (NewClientWithOpts : result Client)
    (ContainerList : Client -> result unit)
    (docker_of_client : Client -> Engine Image ImagePullOptions ContainerConfig HostConfig
       NetworkingConfig WaitCondition WaitChannels ContainerLogsOptions ReadCloser Duration)
    (eng : Engine Image ImagePullOptions ContainerConfig HostConfig
       NetworkingConfig WaitCondition WaitChannels ContainerLogsOptions ReadCloser Duration) :
  newPodman exec_run NewNitricLogFile Client NewClientWithOpts ContainerList docker_of_client
    = Ok eng ->
  (exists v, exec_run "podman" ["--version"] = Ok v) /\
  (exists out, exec_run "docker" ["--version"] = Ok out /\ Contains out "podman" = true) /\
  (exists cli, NewClientWithOpts = Ok cli /\ ContainerList cli = Ok tt /\
               eng = podman exec_run NewNitricLogFile (docker_of_client cli)).
Proof.
  unfold newPodman.
  destruct (exec_run "podman" ["--version"]) as [v|e]; [|discriminate].
  destruct (exec_run "docker" ["--version"]) as [out|e]; [|discriminate].
  destruct (Contains out "podman") eqn:Ec; [|discriminate]. simpl negb. cbv iota.
  destruct NewClientWithOpts as [cli|e]; [|discriminate].
  destruct (ContainerList cli) as [[]|e] eqn:El; [|discriminate].
  intros H. injection H as <-.
  split; [eauto|]. split; [eauto|]. eauto.
Qed.

Lemma newPodman_ok_conditions_witness :
  let d := mkEngine (Image := unit) (ImagePullOptions := unit) (ContainerConfig := unit)
             (HostConfig := unit) (NetworkingConfig := unit) (WaitCondition := unit)
             (WaitChannels := unit) (ContainerLogsOptions := unit) (ReadCloser := unit)
             (Duration := unit)
             "docker" "20.10.11" (fun _ _ _ _ _ => Ok tt) (fun _ _ => Ok [])
             (fun _ _ => Ok tt) (fun _ _ _ _ => Ok "") (fun _ => Ok tt)
             (fun _ _ => Ok tt) (fun _ _ => tt) (fun _ => Ok tt) (fun _ _ => Ok tt)
             (fun _ => mkContainerLogger (mkLogConfig "" []) (Ok tt) (Ok tt)) in
  let run := fun cmd (_ : list string) =>
               if String.eqb cmd "docker" then Ok "podman version 3.4.2"
               else Ok "podman version 3.4.2" in
  let logf := fun sp => (sp ++ "/.nitric/run.log", @None string) in
  newPodman run logf unit (Ok tt) (fun _ => Ok tt) (fun _ => d) =
    Ok (podman run logf d) /\
  Contains "podman version 3.4.2" "podman" = true.
Proof.
  cbv zeta.
  match goal with |- ?A = ?B /\ _ => assert (H : A = B) by reflexivity end.
  split; [exact H|].
  destruct (newPodman_ok_conditions _ _ _ _ _ _ _ H) as (_ & (out & Hout & Hc) & _).
  vm_compute in Hout. injection Hout as <-. exact Hc.
Defined.

(** python's code-as-config recipe is its production recipe without the
    sidecar step and with [pip install jurigged] after the working directory
    is set. *)
Theorem python_code_as_config_recipe (NewContainer_err : option string)
    (Copy_err : string -> string -> option string) (WriteLines : list Stmt -> result unit)
    (handler funcCtxDir version provider : string) (conP : list Stmt) :
  fst (python_FunctionDockerfile NewContainer_err Copy_err WriteLines handler funcCtxDir
         version provider) = Some conP ->
  exists A B final,
    conP = app (withMembrane (app A B) version provider) [final] /\
    fst (python_FunctionDockerfileForCodeAsConfig NewContainer_err Copy_err WriteLines handler)
      = Some (app A (RUN ["pip"; "install"; "jurigged"] :: app B [final])).
Proof.
  unfold python_FunctionDockerfile, python_FunctionDockerfileForCodeAsConfig, copy.
  destruct NewContainer_err; [discriminate|].
  destruct (Copy_err "requirements.txt" "requirements.txt"); [discriminate|].
  destruct (Copy_err "." "."); [discriminate|].
  intros H. injection H as <-.
  exists [FROM "python:3.9-slim" layerFinal; RUN ["pip"; "install"; "--upgrade"; "pip"];
          CONFIG {| WorkingDir := "/"; Env := []; Ports := []; Recipe.Cmd := [];
                    Recipe.Entrypoint := [] |}],
         [COPY "requirements.txt" "requirements.txt";
          RUN ["pip"; "install"; "--no-cache-dir"; "-r"; "requirements.txt"]; COPY "." "."].
  eexists. split; reflexivity.
Qed.

Lemma python_code_as_config_recipe_witness :
  exists conP,
    fst (python_FunctionDockerfile None (fun _ _ => None) (fun _ => Ok tt)
           "hello.py" "." "v1.0.0" "aws") = Some conP /\
    exists A B final,
      conP = app (withMembrane (app A B) "v1.0.0" "aws") [final] /\
      fst (python_FunctionDockerfileForCodeAsConfig None (fun _ _ => None) (fun _ => Ok tt)
             "hello.py") = Some (app A (RUN ["pip"; "install"; "jurigged"] :: app B [final])).
Proof.
  eexists.
  assert (H : fst (python_FunctionDockerfile None (fun _ _ => None) (fun _ => Ok tt)
                     "hello.py" "." "v1.0.0" "aws") = Some _) by reflexivity.
  split; [exact H|].
  exact (python_code_as_config_recipe _ _ _ _ _ _ _ _ H).
Defined.

(** python's production and code-as-config recipes fail on the same builder
    outcomes, with the same error, and then write nothing. *)
Theorem python_recipes_fail_alike (NewContainer_err : option string)
    (Copy_err : string -> string -> option string) (WriteLines : list Stmt -> result unit)
    (handler funcCtxDir version provider : string) :
  let prod := python_FunctionDockerfile NewContainer_err Copy_err WriteLines handler
                funcCtxDir version provider in
  let dev := python_FunctionDockerfileForCodeAsConfig NewContainer_err Copy_err WriteLines
               handler in
  (fst prod = None <-> fst dev = None) /\
  (fst prod = None -> snd prod = snd dev /\ exists e, snd prod = Err e).
Proof.
  cbv zeta. unfold python_FunctionDockerfile, python_FunctionDockerfileForCodeAsConfig, copy.
  destruct NewContainer_err as [e|].
  { simpl. split; [tauto|]. intros _. eauto. }
  destruct (Copy_err "requirements.txt" "requirements.txt") as [e|].
  { simpl. split; [tauto|]. intros _. eauto. }
  destruct (Copy_err "." ".") as [e|].
  { simpl. split; [tauto|]. intros _. eauto. }
  simpl. split; [split; discriminate | discriminate].
Qed.

(** Once its container is created, [javascriptGenerator] always writes its
    recipe, whatever its copies do: a failed copy is never reported, and the
    recipe ends by running the handler with node. *)
Theorem javascriptGenerator_ignores_copy_errors (NewContainer_err : option string)
    (Copy_err : string -> string -> option string) (WriteLines : list Stmt -> result unit)
    (f : Stack.Function) (version provider : string) :
  NewContainer_err = None ->
  exists con,
    javascriptGenerator NewContainer_err Copy_err WriteLines f version provider =
      (Some con, WriteLines con) /\
    last con (RUN []) = CONFIG {| WorkingDir := ""; Env := []; Ports := [];
                                  Recipe.Cmd := ["node"; Stack.Handler f];
                                  Recipe.Entrypoint := [] |}.
Proof.
  intros ->. unfold javascriptGenerator, copy.
  destruct (Copy_err "package.json *.lock *-lock.json" "/");
    destruct (Copy_err "." ".");
    (eexists; split; [reflexivity | apply last_last]).
Qed.

Lemma javascriptGenerator_ignores_copy_errors_witness :
  exists con,
    javascriptGenerator None (fun _ _ => Some "copy failed") (fun _ => Ok tt)
      (Stack.mkFunction "hello" "" "" "functions/hello.js") "v1.0.0" "aws" =
      (Some con, Ok tt) /\
    last con (RUN []) = CONFIG {| WorkingDir := ""; Env := []; Ports := [];
                                  Recipe.Cmd := ["node"; "functions/hello.js"];
                                  Recipe.Entrypoint := [] |}.
Proof.
  exact (javascriptGenerator_ignores_copy_errors None (fun _ _ => Some "copy failed")
           (fun _ => Ok tt) (Stack.mkFunction "hello" "" "" "functions/hello.js")
           "v1.0.0" "aws" eq_refl).
Defined.

Lemma lookup_cons_other (k k' : string) (v : Root.Value) (m : list (string * Root.Value))
    (w : Root.Value) :
  Root.lookup k' m = None -> Root.lookup k m = Some w ->
  Root.lookup k ((k', v) :: m) = Some w.
Proof.
  intros Hk' Hk. simpl. destruct (String.eqb_spec k k') as [->|]; [congruence | exact Hk].
Qed.

Lemma lookup_cons_same (k : string) (v : Root.Value) (m : list (string * Root.Value)) :
  Root.lookup k ((k, v) :: m) = Some v.
Proof. simpl. now rewrite String.eqb_refl. Qed.

(** After [ensureConfigDefaults] the alias "new", the target "local" and a
    nonzero build timeout are set; every alias and target that was set keeps
    its value, and a nonzero timeout is kept. *)
Theorem ensureConfigDefaults_post (c : Root.Viper) :
  let c' := fst (Root.ensureConfigDefaults c) in
  Root.lookup "new" (Root.aliases c') <> None /\
  Root.lookup "local" (Root.targets c') <> None /\
  Root.build_timeout c' <> 0%Z /\
  (forall k v, Root.lookup k (Root.aliases c) = Some v ->
               Root.lookup k (Root.aliases c') = Some v) /\
  (forall k v, Root.lookup k (Root.targets c) = Some v ->
               Root.lookup k (Root.targets c') = Some v) /\
  (Root.build_timeout c <> 0%Z -> Root.build_timeout c' = Root.build_timeout c).
Proof.
  destruct c as [a t b]. cbv zeta. unfold Root.ensureConfigDefaults.
  cbv [Root.build_timeout Root.aliases Root.targets fst snd].
  destruct (Root.lookup "new" a) eqn:Ha; destruct (Root.lookup "local" t) eqn:Ht;
    cbv [Root.build_timeout Root.aliases Root.targets fst snd];
    destruct (Z.eqb_spec b 0) as [Hb|Hb];
    cbv [Root.build_timeout Root.aliases Root.targets fst snd].
  all: split; [rewrite ?Ha; simpl; discriminate|].
  all: split; [rewrite ?Ht; simpl; discriminate|].
  all: split; [unfold Root.five_minutes; lia|].
  all: split; [intros k w Hk; first [exact Hk | apply lookup_cons_other; assumption]|].
  all: split; [intros k w Hk; first [exact Hk | apply lookup_cons_other; assumption]|].
  all: intros; first [reflexivity | lia].
Qed.

(** [ensureConfigDefaults] asks for the config file to be written exactly
    when the alias "new" or the target "local" is missing or the build
    timeout is 0. *)
Theorem ensureConfigDefaults_writes_iff (c : Root.Viper) :
  snd (Root.ensureConfigDefaults c) = true <->
  Root.lookup "new" (Root.aliases c) = None \/ Root.lookup "local" (Root.targets c) = None \/
  Root.build_timeout c = 0%Z.
Proof.
  destruct c as [a t b]. unfold Root.ensureConfigDefaults.
  cbv [Root.build_timeout Root.aliases Root.targets fst snd].
  destruct (Root.lookup "new" a) eqn:Ha; destruct (Root.lookup "local" t) eqn:Ht;
    cbv [Root.build_timeout Root.aliases Root.targets fst snd];
    destruct (Z.eqb_spec b 0) as [Hb|Hb];
    cbv [Root.build_timeout Root.aliases Root.targets fst snd].
  all: rewrite ?Ha, ?Ht; split; [intros H | intros [H|[H|H]]];
    first [tauto | discriminate | congruence].
Qed.

(** Running [ensureConfigDefaults] on the settings it produced changes
    nothing and writes nothing. *)
Theorem ensureConfigDefaults_idempotent (c : Root.Viper) :
  Root.ensureConfigDefaults (fst (Root.ensureConfigDefaults c)) =
  (fst (Root.ensureConfigDefaults c), false).
Proof.
  destruct c as [a t b].
  destruct (Root.lookup "new" a) eqn:Ha; destruct (Root.lookup "local" t) eqn:Ht;
    destruct (Z.eqb_spec b 0) as [Hb|Hb];
    first [subst b | rewrite <- (Z.eqb_neq b 0) in Hb];
    unfold Root.ensureConfigDefaults;
    cbv [Root.build_timeout Root.aliases Root.targets fst snd];
    rewrite ?Ha, ?Ht, ?Hb, ?lookup_cons_same; cbn;
    rewrite ?Ha, ?Ht, ?Hb, ?lookup_cons_same; cbn; rewrite ?Hb; reflexivity.
Qed.

Lemma last_default_cons (A : Type) (a : A) (l : list A) (d : A) :
  last (a :: l) d = last l a.
Proof.
  revert a d. induction l as [|b l IH]; intros a d; [reflexivity|].
  change (last (b :: l) d = last (b :: l) a). rewrite (IH b d), (IH b a). reflexivity.
Qed.

Lemma addAliases_fold (l : list (string * string)) (cmds : list Root.AliasCommand)
    (s : string) :
  fold_left
    (fun st kv =>
       let '(cmds, _) := st in
       let '(n, aliasString) := kv in
       (app cmds [Root.mkAliasCommand n ("alias for: " ++ aliasString)
                                        ("Custom alias command for " ++ aliasString)],
        aliasString))
    l (cmds, s) =
  (app cmds (map (fun kv => Root.mkAliasCommand (fst kv) ("alias for: " ++ snd kv)
                                                 ("Custom alias command for " ++ snd kv)) l),
   last (map snd l) s).
Proof.
  revert cmds s. induction l as [|[n a] l IH]; intros cmds s; simpl.
  - rewrite app_nil_r. reflexivity.
  - rewrite IH, <- app_assoc. simpl. f_equal.
    change (last (map snd l) a = last (a :: map snd l) s).
    rewrite last_default_cons. reflexivity.
Qed.

(** [addAliases] registers one command per alias, in the order visited, named
    after the alias and describing its string; the one variable the [Run]
    closures share ends holding the string of the last alias visited (and ""
    when there is none), so every alias command runs that string. *)
Theorem addAliases_shared_alias (l : list (string * string)) (argv0 : string)
    (args : list string) :
  fst (Root.addAliases l) =
    map (fun kv => Root.mkAliasCommand (fst kv) ("alias for: " ++ snd kv)
                                        ("Custom alias command for " ++ snd kv)) l /\
  snd (Root.addAliases l) = last (map snd l) "" /\
  Root.alias_Run (snd (Root.addAliases l)) argv0 args =
    argv0 :: app (Root.Split " " (last (map snd l) "")) args.
Proof.
  unfold Root.addAliases. rewrite addAliases_fold. simpl. split; [|split]; reflexivity.
Qed.

Section ContainerPaths.
Local Open Scope list_scope.

Lemma names_slash_free (L : list string) : Forall name_ok L -> Forall slash_free L.
Proof.
  intros H. induction H as [|x L Hx _ IH]; constructor; [apply Hx | exact IH].
Qed.

Lemma fold_names (r : bool) (L acc : list string) :
  Forall name_ok L -> fold_left (clean_step r) L acc = rev L ++ acc.
Proof.
  revert acc. induction L as [|x L IH]; intros acc HL; [reflexivity|].
  inversion HL as [|? ? Hx HL']; subst. simpl.
  rewrite clean_step_push by exact Hx. rewrite IH by exact HL'.
  rewrite <- app_assoc. reflexivity.
Qed.

Lemma split_rooted (x : string) : split_slash (String "/" x) = "" :: split_slash x.
Proof. reflexivity. Qed.

(** The elements of a rooted path made of names are those names. *)
Lemma clean_comps_rooted (W : list string) :
  Forall name_ok W -> clean_comps true (split_slash (String "/" (join_slash W))) = W.
Proof.
  intros HW. destruct W as [|w W']; [reflexivity|].
  rewrite split_rooted.
  rewrite split_join by (discriminate || exact (names_slash_free _ HW)).
  unfold clean_comps.
  change (fold_left (clean_step true) ("" :: w :: W') [])
    with (fold_left (clean_step true) (w :: W') []).
  rewrite fold_names by exact HW. rewrite app_nil_r, rev_involutive. reflexivity.
Qed.

Lemma join_snoc (L : list string) (x : string) :
  L <> [] -> join_slash (L ++ [x]) = (join_slash L ++ String "/" x)%string.
Proof.
  induction L as [|a L IH]; intros Hne; [contradiction|].
  destruct L as [|b L]; [reflexivity|].
  change (join_slash (app (a :: b :: L) [x]))
    with (a ++ String "/" (join_slash (app (b :: L) [x])))%string.
  rewrite IH by discriminate.
  change (join_slash (a :: b :: L)) with (a ++ String "/" (join_slash (b :: L)))%string.
  rewrite append_assoc. reflexivity.
Qed.

Lemma dir_prefix_app (x y : string) :
  Contains y "/" = true -> dir_prefix (x ++ y) = (x ++ dir_prefix y)%string.
Proof.
  intros Hy. induction x as [|c x IH]; [reflexivity|].
  simpl. rewrite (Contains_app_r x y "/" Hy), IH. reflexivity.
Qed.

Lemma dir_prefix_name (f : string) : slash_free f -> dir_prefix (String "/" f) = "/".
Proof. unfold slash_free. intros H. simpl. rewrite H. reflexivity. Qed.

(** [filepath.Dir] of a rooted path of names drops its last name. *)
Lemma Dir_names (Q : list string) (f : string) :
  Q <> [] -> Forall name_ok (Q ++ [f]) ->
  Dir (String "/" (join_slash (Q ++ [f]))) = String "/" (join_slash Q).
Proof.
  intros HQ HP. apply Forall_app in HP as [HQn Hf].
  apply Forall_inv in Hf. destruct Hf as (_ & _ & _ & Hf).
  unfold Dir. rewrite join_snoc by exact HQ.
  change (String "/" (join_slash Q ++ String "/" f))
    with ((String "/" (join_slash Q)) ++ String "/" f)%string.
  rewrite dir_prefix_app by reflexivity. rewrite dir_prefix_name by exact Hf.
  unfold Clean.
  change (IsAbs (String "/" (join_slash Q) ++ "/")) with true.
  change ((String "/" (join_slash Q) ++ "/")%string)
    with (String "/" (join_slash Q ++ String "/" "")).
  rewrite split_rooted, split_slash_app.
  rewrite split_join by (exact HQ || exact (names_slash_free _ HQn)).
  unfold clean_comps.
  change (fold_left (clean_step true) ("" :: Q ++ split_slash "") [])
    with (fold_left (clean_step true) (Q ++ split_slash "") []).
  rewrite fold_left_app, (fold_names true Q []) by exact HQn.
  change (fold_left (clean_step true) (split_slash "") (rev Q ++ []))
    with (rev Q ++ []).
  rewrite app_nil_r, rev_involutive. reflexivity.
Qed.

Lemma list_ascii_of_string_app (a b : string) :
  list_ascii_of_string (a ++ b) = list_ascii_of_string a ++ list_ascii_of_string b.
Proof. induction a as [|c a IH]; simpl; [reflexivity | now rewrite IH]. Qed.

Lemma slash_free_chars (d : string) :
  slash_free d -> Forall (fun c => Ascii.eqb c "/" = false) (list_ascii_of_string d).
Proof.
  unfold slash_free. induction d as [|c d IH]; intros H; simpl; constructor.
  - cbn -[Ascii.eqb] in H. apply orb_false_elim in H as [H _].
    rewrite andb_true_r in H. rewrite Ascii.eqb_sym. exact H.
  - apply IH. cbn -[Ascii.eqb] in H. apply orb_false_elim in H as [_ H]. exact H.
Qed.

Lemma take_until_slash_app (l r : list ascii) :
  Forall (fun c => Ascii.eqb c "/" = false) l -> take_until_slash (l ++ "/"%char :: r) = l.
Proof.
  induction l as [|c l IH]; intros H; [reflexivity|].
  inversion H as [|? ? Hc Hl]; subst. simpl. rewrite Hc, (IH Hl). reflexivity.
Qed.

(** [filepath.Base] of a path ending in a separator and a name is that name. *)
Lemma Base_last (x d : string) : name_ok d -> Base (x ++ String "/" d) = d.
Proof.
  intros (Hne & _ & _ & Hd).
  unfold Base.
  assert (E : String.eqb (x ++ String "/" d) "" = false) by (destruct x; reflexivity).
  rewrite E. clear E.
  rewrite list_ascii_of_string_app. simpl list_ascii_of_string.
  rewrite rev_app_distr. simpl rev.
  pose proof (slash_free_chars d Hd) as Hc. apply Forall_rev in Hc.
  assert (Hl : rev (list_ascii_of_string d) <> []).
  { destruct d as [|c d]; [contradiction|]. simpl. destruct (rev (list_ascii_of_string d)); discriminate. }
  rewrite <- app_assoc. simpl.
  destruct (rev (list_ascii_of_string d)) as [|c L] eqn:EL; [contradiction|].
  inversion Hc as [|? ? Hc0 HL]; subst. simpl. rewrite ?Hc0. simpl. rewrite ?Hc0.
  rewrite take_until_slash_app by exact HL.
  change (rev L ++ [c]) with (rev (c :: L)).
  rewrite <- EL, rev_involutive. apply string_of_list_ascii_of_string.
Qed.

(** The name golang gives its container for an absolute handler made of
    names: the name of the handler's directory. *)
Lemma Base_Dir_names (C : list string) (d f : string) :
  Forall name_ok (C ++ [d; f]) ->
  Base (Dir (String "/" (join_slash (C ++ [d; f])))) = d.
Proof.
  intros HP.
  assert (Hd : name_ok d).
  { apply Forall_app in HP as [_ H]. apply Forall_inv in H. exact H. }
  replace (C ++ [d; f]) with ((C ++ [d]) ++ [f]) in *
    by (rewrite <- app_assoc; reflexivity).
  rewrite Dir_names by (destruct C; discriminate || exact HP).
  destruct C as [|c C].
  - exact (Base_last "" d Hd).
  - rewrite join_snoc by discriminate.
    change (String "/" (join_slash (c :: C) ++ String "/" d))
      with ((String "/" (join_slash (c :: C))) ++ String "/" d)%string.
    apply Base_last. exact Hd.
Qed.

(** [filepath.Abs] of a handler made of names, given rooted or relative to a
    working directory made of names. *)
Lemma Abs_names (Getwd : result string) (handler : string) (P : list string) :
  Forall name_ok P ->
  (handler = String "/" (join_slash P) \/
   exists W H, Getwd = Ok (String "/" (join_slash W)) /\ H <> [] /\
               handler = join_slash H /\ W ++ H = P) ->
  Abs Getwd handler = Ok (String "/" (join_slash P)).
Proof.
  intros HP [-> | (W & H & Hwd & HH & -> & <-)].
  - unfold Abs. change (IsAbs (String "/" (join_slash P))) with true.
    f_equal. unfold Clean. change (IsAbs (String "/" (join_slash P))) with true.
    rewrite clean_comps_rooted by exact HP. reflexivity.
  - apply Forall_app in HP as [HW HHn].
    destruct H as [|h H']; [contradiction|].
    pose proof (Forall_inv HHn) as (Hh & _ & _ & Hhs).
    unfold Abs. rewrite join_not_abs by assumption. rewrite Hwd. f_equal.
    rewrite Join_fold by (apply join_not_empty || apply join_not_abs; assumption).
    change (IsAbs (String "/" (join_slash W))) with true.
    rewrite clean_comps_rooted by exact HW.
    rewrite split_join by (discriminate || exact (names_slash_free _ HHn)).
    rewrite fold_names by exact HHn.
    rewrite <- rev_app_distr, rev_involutive. reflexivity.
Qed.

End ContainerPaths.

(** golang's [ContainerName] for a handler file made of plain names, given
    as an absolute path or relative to the working directory, is the name of
    the directory holding the handler. *)
Theorem golang_ContainerName_parent_dir (Getwd : result string) (rte handler : string)
    (C : list string) (d f : string) :
  Forall name_ok (app C [d; f]) ->
  (handler = ("/" ++ join_slash (app C [d; f]))%string \/
   exists W H, Getwd = Ok ("/" ++ join_slash W)%string /\ H <> [] /\
               handler = join_slash H /\ app W H = app C [d; f]) ->
  ContainerName Getwd (golang rte handler) = d.
Proof.
  intros HP Hcase. simpl.
  rewrite (Abs_names Getwd handler (app C [d; f]) HP Hcase).
  apply Base_Dir_names. exact HP.
Qed.

Lemma golang_ContainerName_parent_dir_witness :
  Forall name_ok ["functions"; "hello"; "main.go"] /\
  ContainerName (Ok "/home/dev/proj") (golang "go" "functions/hello/main.go") = "hello".
Proof.
  assert (HP : Forall name_ok (app ["home"; "dev"; "proj"; "functions"] ["hello"; "main.go"])).
  { repeat constructor; (discriminate || reflexivity). }
  split.
  - repeat constructor; (discriminate || reflexivity).
  - apply (golang_ContainerName_parent_dir (Ok "/home/dev/proj") "go" "functions/hello/main.go"
             ["home"; "dev"; "proj"; "functions"] "hello" "main.go" HP).
    right. exists ["home"; "dev"; "proj"], ["functions"; "hello"; "main.go"].
    split; [reflexivity|]. split; [discriminate|]. split; reflexivity.
Defined.

(** golang's [ContainerName] for the handler "." is the name of the parent of
    the working directory, not of the working directory itself. *)
Theorem golang_ContainerName_dot (Getwd : result string) (rte : string)
    (C : list string) (d e : string) :
  Forall name_ok (app C [d; e]) ->
  Getwd = Ok ("/" ++ join_slash (app C [d; e]))%string ->
  ContainerName Getwd (golang rte ".") = d.
Proof.
  intros HP Hwd. simpl.
  change (("/" ++ join_slash (app C [d; e]))%string)
    with (String "/" (join_slash (app C [d; e]))) in Hwd.
  assert (Habs : Abs Getwd "." = Ok (String "/" (join_slash (app C [d; e])))).
  { unfold Abs. change (IsAbs ".") with false. rewrite Hwd. f_equal.
    rewrite Join_fold by (discriminate || reflexivity).
    change (IsAbs (String "/" (join_slash (app C [d; e])))) with true.
    rewrite clean_comps_rooted by exact HP.
    change (split_slash ".") with ["."]. simpl fold_left.
    change (clean_step true (rev (app C [d; e])) ".") with (rev (app C [d; e])).
    rewrite rev_involutive. reflexivity. }
  rewrite Habs. apply Base_Dir_names. exact HP.
Qed.

Lemma golang_ContainerName_dot_witness :
  ContainerName (Ok "/home/dev/proj") (golang "go" ".") = "dev".
Proof.
  apply (golang_ContainerName_dot (Ok "/home/dev/proj") "go" ["home"] "dev" "proj").
  - repeat constructor; (discriminate || reflexivity).
  - reflexivity.
Defined.

Lemma dir_prefix_free (f : string) : slash_free f -> dir_prefix f = "".
Proof.
  unfold slash_free. destruct f as [|c s]; intros H; [reflexivity|].
  cbn -[Ascii.eqb] in H. apply orb_false_elim in H as [Hc H].
  rewrite andb_true_r in Hc.
  simpl. rewrite H, Ascii.eqb_sym, Hc. reflexivity.
Qed.

(** [filepath.Dir] of a relative path of names drops its last name, and is
    "." for a single name. *)
Lemma Dir_rel_names (C : list string) (f : string) :
  Forall name_ok (app C [f]) ->
  Dir (join_slash (app C [f])) = match C with [] => "." | _ => join_slash C end.
Proof.
  intros HP. apply Forall_app in HP as [HC Hf].
  apply Forall_inv in Hf. destruct Hf as (_ & _ & _ & Hf).
  destruct C as [|c C'].
  - simpl. unfold Dir. rewrite dir_prefix_free by exact Hf. reflexivity.
  - pose proof (Forall_inv HC) as (Hc & _ & _ & Hcs).
    unfold Dir. rewrite join_snoc by discriminate.
    rewrite dir_prefix_app by reflexivity. rewrite dir_prefix_name by exact Hf.
    unfold Clean.
    assert (Ha : IsAbs (join_slash (c :: C') ++ "/") = false).
    { unfold IsAbs. rewrite HasPrefix_app_first by (apply join_not_empty; exact Hc).
      exact (join_not_abs c C' Hc Hcs). }
    rewrite Ha.
    change ((join_slash (c :: C') ++ "/")%string)
      with ((join_slash (c :: C') ++ String "/" "")%string).
    rewrite split_slash_app.
    rewrite split_join by (discriminate || exact (names_slash_free _ HC)).
    unfold clean_comps. rewrite fold_left_app, (fold_names false (c :: C') []) by exact HC.
    change (fold_left (clean_step false) (split_slash "") (app (rev (c :: C')) []))
      with (app (rev (c :: C')) []).
    rewrite app_nil_r, rev_involutive. reflexivity.
Qed.

Lemma golang_prod_text (x y : string) :
  Sprintf_s prodDockerfile [x; y] =
    (substring 0 210 prodDockerfile ++ "go build -o /bin/main ./" ++ x ++ "/..." ++
     Sprintf_s (substring 240 212 prodDockerfile) [y])%string.
Proof. reflexivity. Qed.

(** golang's production recipe compiles the package of the handler's
    directory: for a relative handler made of names, its build step names
    that directory, or "." for a handler in the build context's root. *)
Theorem golang_FunctionDockerfile_builds_handler_dir (Write : string -> result unit)
    (C : list string) (f funcCtxDir version provider : string) :
  Forall name_ok (app C [f]) ->
  Contains (fst (golang_FunctionDockerfile Write (join_slash (app C [f])) funcCtxDir
                   version provider))
    ("go build -o /bin/main ./" ++ match C with [] => "." | _ => join_slash C end ++ "/...")
  = true.
Proof.
  intros HP. cbv [golang_FunctionDockerfile fst].
  rewrite golang_prod_text, (Dir_rel_names C f HP).
  apply Contains_app_r.
  rewrite <- !append_assoc. apply Contains_app_l.
  rewrite !append_assoc. apply Contains_self.
Qed.

Lemma golang_FunctionDockerfile_builds_handler_dir_witness :
  Forall name_ok (app ["functions"; "hello"] ["main.go"]) /\
  Contains (fst (golang_FunctionDockerfile (fun _ => Ok tt) "functions/hello/main.go" "."
                   "v1.0.0" "aws"))
    "go build -o /bin/main ./functions/hello/..." = true.
Proof.
  assert (HP : Forall name_ok (app ["functions"; "hello"] ["main.go"]))
    by (repeat constructor; (discriminate || reflexivity)).
  split; [exact HP|].
  exact (golang_FunctionDockerfile_builds_handler_dir (fun _ => Ok tt) ["functions"; "hello"]
           "main.go" "." "v1.0.0" "aws" HP).
Defined.
